(** * SHEGA backend: normalisation, alerting and control routing

    A shallow embedding of the message core of the SHEGA backend:
    - [services/mqttService.js]: [normalizeMessage], [inferStream],
      [pickNumber], [isFiniteNumber], [toISO], [extractHomeFromDevice],
      [maybePublishAlerts], [publish] and the ['message'] handler
      registered by [startMqtt];
    - the sockets module: [getIO], [emitTelemetry], [emitAlert],
      [emitCommand];
    - [services/deviceControlService.js]: [getMqtt], [sendDeviceControl].

    JavaScript values are modelled by the inductive type [value]; objects
    are finite maps from property names to values, as [JSON.parse] makes
    them: every property is an own data property and none is callable.
    Finite numbers are rationals: every finite double is one, and the
    comparisons of the source agree with the order of [Q] on them.
    Strings are byte strings; the case mappings of [String.prototype]
    are builtins.  A conversion to text that throws is modelled as such
    ([ToString]). *)

From Stdlib Require Import QArith Ascii String DecimalString.
From stdpp Require Import gmap strings list.

Set Warnings "-register-all".
Local Open Scope string_scope.

(** ** JavaScript values *)

Module Js.

Inductive number :=
| Fin (q : Q)
| NaN
| PosInf
| NegInf.

Inductive value :=
| VUndef
| VNull
| VBool (b : bool)
| VNum (n : number)
| VStr (s : string)
| VArr (l : list value)
| VObj (m : gmap string value).

(** A thrown [Error]: its message and the [status] property, if set. *)
Record Error := mkError { message : string; status : option nat }.

Inductive Res (A : Type) :=
| Ok (a : A)
| Throw (e : Error).
Arguments Ok {A} a.
Arguments Throw {A} e.

Definition TypeError : Error := mkError "TypeError" None.

(** Builtins that the development does not re-implement:
    [number_to_string] is ECMAScript's Number::toString on finite
    numbers; [toUpperCase] and [toLowerCase] are the methods of
    [String.prototype], the case mappings of Unicode. *)
Class Builtins := {
  number_to_string : Q -> string;
  toUpperCase : string -> string;
  toLowerCase : string -> string;
  (** [JSON.parse(buf.toString())]; [None] when it throws. *)
  JSON_parse : string -> option value;
  (** [new Date(v).toISOString()]; [None] for an invalid date. *)
  Date_toISOString : value -> option string
}.

(** [v.k] for a [v] that is neither [null] nor [undefined], and a name
    [k] that is no index and no prototype property (all names read by
    the source are such). *)
Definition get (v : value) (k : string) : value :=
  match v with
  | VObj m => default VUndef (m !! k)
  | _ => VUndef
  end.

Definition nullish (v : value) : bool :=
  match v with
  | VUndef | VNull => true
  | _ => false
  end.

Definition truthy (v : value) : bool :=
  match v with
  | VUndef | VNull => false
  | VBool b => b
  | VNum (Fin q) => negb (Qeq_bool q 0)
  | VNum NaN => false
  | VNum _ => true
  | VStr s => negb (String.eqb s EmptyString)
  | VArr _ | VObj _ => true
  end.

(** [a || b] and [a && b] when [b] is a value already. *)
Definition or (a b : value) : value := if truthy a then a else b.
Definition and (a b : value) : value := if truthy a then b else a.

Definition bind {A B : Type} (r : Res A) (f : A -> Res B) : Res B :=
  match r with
  | Ok a => f a
  | Throw e => Throw e
  end.

(** [a || b] and [a && b] when the evaluation of [b] can throw: [b] is
    evaluated only when [a] does not decide. *)
Definition or_else (a : value) (b : Res value) : Res value :=
  if truthy a then Ok a else b.
Definition and_then (a : value) (b : Res value) : Res value :=
  if truthy a then b else Ok a.

(** [typeof v === 'object'] and [typeof v === 'boolean']. *)
Definition typeof_object (v : value) : bool :=
  match v with
  | VNull | VArr _ | VObj _ => true
  | _ => false
  end.

Definition typeof_boolean (v : value) : bool :=
  match v with
  | VBool _ => true
  | _ => false
  end.

(** The rest of [s] after its prefix [p], when [p] is one. *)
Fixpoint strip_prefix (p s : string) : option string :=
  match p with
  | EmptyString => Some s
  | String a p' =>
      match s with
      | EmptyString => None
      | String b s' => if Ascii.eqb a b then strip_prefix p' s' else None
      end
  end.

(** [hay.includes(needle)] *)
Fixpoint includes (hay needle : string) : bool :=
  match strip_prefix needle hay with
  | Some _ => true
  | None =>
      match hay with
      | EmptyString => false
      | String _ r => includes r needle
      end
  end.

Section WithBuiltins.
Context `{Builtins}.

(** The text of [v]: what [String(v)] and a template literal give
    when the conversion returns. *)
Fixpoint toStr (v : value) : string :=
  match v with
  | VUndef => "undefined"
  | VNull => "null"
  | VBool true => "true"
  | VBool false => "false"
  | VNum (Fin q) => number_to_string q
  | VNum NaN => "NaN"
  | VNum PosInf => "Infinity"
  | VNum NegInf => "-Infinity"
  | VStr s => s
  | VArr l =>
      (fix join (l : list value) : string :=
         match l with
         | [] => EmptyString
         | x :: r =>
             let e := if nullish x then EmptyString else toStr x in
             match r with
             | [] => e
             | _ => e ++ "," ++ join r
             end
         end) l
  | VObj _ => "[object Object]"
  end.

(** Whether the conversion of [v] to a primitive returns.  An object
    with an own property [toString] (which is not callable) has no
    method left that gives a primitive, and the conversion throws a
    TypeError; so does the conversion of an array that holds such an
    object, since [join] converts the elements. *)
Fixpoint converts (v : value) : bool :=
  match v with
  | VArr l =>
      (fix all (l : list value) : bool :=
         match l with
         | [] => true
         | x :: r => converts x && all r
         end) l
  | VObj m =>
      match m !! "toString" with
      | Some _ => false
      | None => true
      end
  | _ => true
  end.

(** [String(v)], also the conversion of [${v}] in a template
    literal. *)
Definition ToString (v : value) : Res string :=
  if converts v then Ok (toStr v) else Throw TypeError.
End WithBuiltins.

(** Object literals. *)
Definition obj (fields : list (string * value)) : value :=
  VObj (list_to_map fields).

Notation "'let*' x ':=' r 'in' k" := (bind r (fun x => k))
  (at level 10, x name, r at level 100, k at level 200).

End Js.
Import Js.

(** ** Threshold evaluation ([maybePublishAlerts], the [alerts] array) *)

Module Alerting.

Inductive AlertType := CO2 | CO | PM2_5 | STOVE_TEMP.
Inductive Level := warn | danger.

#[global] Instance AlertType_eq_dec : EqDecision AlertType.
Proof. solve_decision. Defined.

Record AlertItem := mkItem {
  type : AlertType;
  level : Level;
  value_of : value;
  limit : Q
}.

(** The canonical payload built by [normalizeMessage]. *)
Record Payload := mkPayload {
  co2 : value;
  co : value;
  pm25 : value;
  pm10 : value;
  temperature_c : value;
  humidity_pct : value;
  stove_temp_c : value;
  fanOn : value;
  buzzerOn : value;
  profile : value;
  windowOpen : value
}.

(** [typeof v === 'number' && Number.isFinite(v)] *)
Definition isFiniteNumber (v : value) : bool :=
  match v with
  | VNum (Fin _) => true
  | _ => false
  end.

(** [v > lim] for a number [v]; the source evaluates it only after
    [isFiniteNumber v]. *)
Definition gt (v : value) (lim : Q) : bool :=
  match v with
  | VNum (Fin q) => negb (Qle_bool q lim)
  | VNum PosInf => true
  | _ => false
  end.

Definition evaluate (p : Payload) : list AlertItem :=
  (if isFiniteNumber (co2 p) && gt (co2 p) 1000
   then [mkItem CO2 (if gt (co2 p) 1500 then danger else warn) (co2 p) 1000]
   else [])
  ++ (if isFiniteNumber (co p) && gt (co p) 35
      then [mkItem CO danger (co p) 35]
      else [])
  ++ (if isFiniteNumber (pm25 p) && gt (pm25 p) 35
      then [mkItem PM2_5 (if gt (pm25 p) 100 then danger else warn) (pm25 p) 35]
      else [])
  ++ (if isFiniteNumber (stove_temp_c p) && gt (stove_temp_c p) 250
      then [mkItem STOVE_TEMP danger (stove_temp_c p) 250]
      else []).

(** The items of one metric, in the order of the list. *)
Definition items_of (t : AlertType) (l : list AlertItem) : list AlertItem :=
  filter (fun i => type i = t) l.

End Alerting.
Import Alerting.

(** ** The normaliser ([normalizeMessage] and its helpers) *)

Module Normalizer.

Record Msg := mkMsg {
  ts : string;
  homeId : value;
  deviceId : value;
  stream : value;
  payload : Payload
}.

(** [pickNumber(...candidates)]; [Number(v)] of a number is [v]. *)
Fixpoint pickNumber (candidates : list value) : value :=
  match candidates with
  | [] => VUndef
  | v :: rest => if isFiniteNumber v then v else pickNumber rest
  end.

Definition is_digit (c : ascii) : bool :=
  let n := nat_of_ascii c in (48 <=? n)%nat && (n <=? 57)%nat.

(** The pattern [HOME_\d{2}] matched at the start of [s]. *)
Definition match_here (s : string) : option string :=
  match strip_prefix "HOME_" s with
  | Some (String d1 (String d2 _)) =>
      if is_digit d1 && is_digit d2
      then Some ("HOME_" ++ String d1 (String d2 EmptyString))
      else None
  | _ => None
  end.

(** [s.match(/HOME_\d{2}/)]: the leftmost match, [m[0]]. *)
Fixpoint match_HOME (s : string) : option string :=
  match match_here s with
  | Some m => Some m
  | None =>
      match s with
      | EmptyString => None
      | String _ rest => match_HOME rest
      end
  end.

Section WithBuiltins.
Context `{Builtins}.

Definition extractHomeFromDevice (deviceId : value) : Res value :=
  if negb (truthy deviceId) then Ok VUndef
  else
    let* s := ToString deviceId in
    Ok match match_HOME s with
       | Some m => VStr m
       | None => VUndef
       end.

(** [raw.stream && String(raw.stream).toUpperCase()] *)
Definition explicit_stream (raw : value) : Res value :=
  and_then (get raw "stream")
           (let* s := ToString (get raw "stream") in Ok (VStr (toUpperCase s))).

Definition inferStream (topic : string) (raw : value) : Res value :=
  let t := toLowerCase topic in
  if includes t "/airnode/" then Ok (VStr "AIR")
  else if includes t "/stovenode/" then Ok (VStr "STOVE")
  else let* e := explicit_stream raw in Ok (Js.or e VUndef).

(** [toISO(v)]; [now] is [new Date().toISOString()].  [new Date(v)]
    converts an object or an array [v] to a primitive first. *)
Definition toISO (now : string) (v : value) : Res string :=
  if negb (truthy v) then Ok now
  else if negb (converts v) then Throw TypeError
  else Ok match Date_toISOString v with
          | Some iso => iso
          | None => now
          end.

(** The object that carries the measurements: the nested [payload]
    when it is one, else [raw] itself. *)
Definition source_of (raw : value) : value :=
  if truthy (get raw "payload") && typeof_object (get raw "payload")
  then get raw "payload"
  else raw.

Definition strict_bool (v : value) : value :=
  if typeof_boolean v then v else VUndef.

Definition canonical_payload (src : value) : Payload :=
  {| co2 := pickNumber [get src "co2"; get src "co2_ppm"];
     co := pickNumber [get src "co"; get src "co_ppm"];
     pm25 := pickNumber [get src "pm25"; get src "pm25_ugm3";
                         get src "pm2_5"; get src "pm2_5_ugm3"];
     pm10 := pickNumber [get src "pm10"; get src "pm10_ugm3"];
     temperature_c := pickNumber [get src "temperature_c";
                                  get src "temp_c";
                                  get src "temperature"];
     humidity_pct := pickNumber [get src "humidity_pct";
                                 get src "humidity"];
     stove_temp_c := pickNumber [get src "stove_temp_c";
                                 get src "stove_temp"];
     fanOn := strict_bool (get src "fanOn");
     buzzerOn := strict_bool (get src "buzzerOn");
     profile := get src "profile";
     windowOpen := strict_bool (get src "windowOpen") |}.

(** The heuristic of the [if (!stream)] block. *)
Definition by_presence (p : Payload) : value :=
  if isFiniteNumber (stove_temp_c p) then VStr "STOVE"
  else if isFiniteNumber (co2 p) || isFiniteNumber (co p)
          || isFiniteNumber (pm25 p) || isFiniteNumber (pm10 p)
       then VStr "AIR"
       else VUndef.

(** [normalizeMessage(topic, raw)].  Reading [raw.ts] throws a
    TypeError when [raw] is [null]; the conversions of [raw.ts], of
    [raw.deviceId] (when no alias names the home) and of
    [raw.stream] can throw one too. *)
Definition normalizeMessage (now topic : string) (raw : value) : Res Msg :=
  if nullish raw then Throw TypeError
  else
    let* ts := toISO now (get raw "ts") in
    let* homeId :=
      or_else (Js.or (Js.or (get raw "homeId") (get raw "home")) (get raw "h"))
              (extractHomeFromDevice (get raw "deviceId")) in
    let deviceId := Js.or (get raw "deviceId") (get raw "device") in
    let* explicit := explicit_stream raw in
    let* stream := or_else explicit (inferStream topic raw) in
    let src := source_of raw in
    let payload := canonical_payload src in
    let stream := if negb (truthy stream) then by_presence payload else stream in
    Ok (mkMsg ts homeId deviceId stream payload).
End WithBuiltins.

End Normalizer.
Import Normalizer.

(** ** The sockets module (live fan-out) *)

Module Sockets.

(** [io.to(room).emit(event, arg)] *)
Record Emit := mkEmit { room : string; event : string; arg : value }.

Section WithBuiltins.
Context `{Builtins}.

(** [io] is [true] once [init] has created the server. *)
Definition getIO (io : bool) : Res bool :=
  if negb io then Throw (mkError "Socket.IO not initialized" None)
  else Ok io.

Definition emit_to_home (io : bool) (event : string) (o : value)
  : Res (list Emit) :=
  if negb io then Ok []
  else if nullish o then Throw TypeError
  else
    let* h := ToString (get o "homeId") in
    Ok [mkEmit ("home:" ++ h) event o; mkEmit "admin" event o].

Definition emitTelemetry (io : bool) (doc : value) : Res (list Emit) :=
  emit_to_home io "telemetry" doc.

Definition emitAlert (io : bool) (alertObj : value) : Res (list Emit) :=
  emit_to_home io "alert" alertObj.

Definition emitCommand (io : bool) (cmdObj : value) : Res (list Emit) :=
  emit_to_home io "command" cmdObj.
End WithBuiltins.

End Sockets.

(** ** The ingestion router (the ['message'] handler of [startMqtt]) *)

Module Router.

(** Arguments of the two collaborators of the handler. *)
Record UpsertArgs := mkUpsert {
  u_homeId : value;
  u_deviceId : value;
  u_stream : value
}.

Record SaveArgs := mkSave {
  s_homeId : value;
  s_deviceId : value;
  s_stream : value;
  s_payload : Payload;
  s_ts : string;
  s_deviceRef : value
}.

(** The services the core calls and that live outside of it.  Each
    one may change the world and either returns or rejects. *)
Class Collaborators (World : Type) := {
  (** [new Date().toISOString()] *)
  clock : World -> string;
  (** [deviceService.upsertFromIngest] *)
  upsertFromIngest : World -> UpsertArgs -> World * Res value;
  (** [telemetryService.saveTelemetry] *)
  saveTelemetry : World -> SaveArgs -> World * Res value;
  (** [Device.findOne({ deviceId }).lean()]; [VNull] when none matches *)
  Device_findOne : World -> value -> World * Res value
}.

(** Module-level variables: [client] of the MQTT service ([true] once
    [startMqtt] has connected it), [io] of the sockets module,
    [mqttPublisher] of the device control service, and whether
    [require('../mqtt')] resolves to the MQTT service. *)
Record State (World : Type) := mkState {
  client : bool;
  io : bool;
  mqttPublisher : bool;
  mqtt_resolves : bool;
  world : World
}.
Arguments mkState {World}.
Arguments client {World}.
Arguments io {World}.
Arguments mqttPublisher {World}.
Arguments mqtt_resolves {World}.
Arguments world {World}.

Inductive LogLine :=
| NonJson
| Received
| MissingIds
| NoStream
| Saved
| AlertPublished
| MessageError.

Inductive Channel := telemetry | alert | command.

(** What the core does to the outside, in order: console lines, the
    calls of the registry and of the store with their outcome, the
    objects handed to the sockets module, what that module emits, and
    the messages published on the bus. *)
Inductive Event :=
| Log (l : LogLine)
| RegistryUpsert (a : UpsertArgs) (accepted : bool)
| StoreAppend (a : SaveArgs) (accepted : bool)
| Push (c : Channel) (o : value)
| SocketEmit (e : Sockets.Emit)
| BusPublish (topic : string) (json : value).

Record AlertRecord := mkAlert {
  a_homeId : value;
  a_deviceId : value;
  a_stream : value;
  a_ts : string;
  a_alerts : list AlertItem
}.

Definition type_name (t : AlertType) : string :=
  match t with
  | CO2 => "CO2"
  | CO => "CO"
  | PM2_5 => "PM2_5"
  | STOVE_TEMP => "STOVE_TEMP"
  end.

Definition level_name (l : Level) : string :=
  match l with
  | warn => "warn"
  | danger => "danger"
  end.

Definition item_value (i : AlertItem) : value :=
  obj [("type", VStr (type_name (type i)));
       ("level", VStr (level_name (level i)));
       ("value", value_of i);
       ("limit", VNum (Fin (limit i)))].

Definition alert_value (r : AlertRecord) : value :=
  obj [("homeId", a_homeId r);
       ("deviceId", a_deviceId r);
       ("stream", a_stream r);
       ("ts", VStr (a_ts r));
       ("alerts", VArr (map item_value (a_alerts r)))].

Section WithEnvironment.
Context `{Builtins} {World : Type} `{Collaborators World}.

(** [try { sockets.emitX(o); } catch {}]: the call and what the
    sockets module emits; a throw is swallowed. *)
Definition push (io : bool) (c : Channel) (o : value) : list Event :=
  let r := match c with
           | telemetry => Sockets.emitTelemetry io o
           | alert => Sockets.emitAlert io o
           | command => Sockets.emitCommand io o
           end in
  Push c o :: match r with
              | Ok es => map SocketEmit es
              | Throw _ => []
              end.

(** [maybePublishAlerts(msg)] *)
Definition maybePublishAlerts (st : State World) (w : World) (msg : Msg)
  : list Event :=
  if negb (client st) then []
  else
    let alerts := evaluate (payload msg) in
    match alerts with
    | [] => []
    | _ :: _ =>
        let payload :=
          alert_value (mkAlert (homeId msg) (deviceId msg) (stream msg)
                               (clock w) alerts) in
        ([BusPublish "shega/alerts" payload; Log AlertPublished]
         ++ push (io st) alert payload)%list
    end.

(** [publish(topic, json)] of the MQTT service; the serialisation of
    [json] is not modelled, the bus carries the value. *)
Definition publish (st : State World) (topic : string) (json : value)
  : Res (list Event) :=
  if negb (client st) then Throw (mkError "MQTT not started" None)
  else Ok [BusPublish topic json].

(** The line logged for every normalised message: its template
    literal converts [msg.homeId], [msg.deviceId] and [msg.stream] to
    text, outside of any [try]. *)
Definition received_line (msg : Msg) : Res LogLine :=
  let* _ := ToString (homeId msg) in
  let* _ := ToString (deviceId msg) in
  let* _ := ToString (stream msg) in
  Ok Received.

(** The body of the handler after [JSON.parse].  A throw of
    [normalizeMessage] or of the line logged after it rejects the
    promise of the handler before anything else is done. *)
Definition handle (st : State World) (topic : string) (raw : value)
  : Res unit * World * list Event :=
  let w := world st in
  match let* msg := normalizeMessage (clock w) topic raw in
        let* line := received_line msg in
        Ok (msg, line) with
  | Throw e => (Throw e, w, [])
  | Ok (msg, line) =>
      if String.eqb topic "shega/alerts"
      then (Ok tt, w, Log line :: push (io st) alert raw)
      else if negb (truthy (homeId msg)) || negb (truthy (deviceId msg))
      then (Ok tt, w, [Log line; Log MissingIds])
      else if negb (truthy (stream msg))
      then (Ok tt, w, [Log line; Log NoStream])
      else
        let ua := mkUpsert (homeId msg) (deviceId msg) (stream msg) in
        let '(w1, r1) := upsertFromIngest w ua in
        match r1 with
        | Throw _ =>
            (Ok tt, w1,
             [Log line; RegistryUpsert ua false; Log MessageError])
        | Ok device =>
            let sa := mkSave (homeId msg) (deviceId msg) (stream msg)
                             (payload msg) (ts msg)
                             (if nullish device then VUndef
                              else get device "_id") in
            let '(w2, r2) := saveTelemetry w1 sa in
            match r2 with
            | Throw _ =>
                (Ok tt, w2, [Log line; RegistryUpsert ua true;
                             StoreAppend sa false; Log MessageError])
            | Ok doc =>
                (Ok tt, w2,
                 ([Log line; RegistryUpsert ua true;
                   StoreAppend sa true; Log Saved]
                  (* [doc.toObject] throws on a nullish [doc], inside
                     the inner [try]; the plain object of a document
                     is the document itself here *)
                  ++ (if nullish doc then [] else push (io st) telemetry doc)
                  ++ maybePublishAlerts st w2 msg)%list)
            end
        end
  end.

(** [client.on('message', async (topic, buf) => ...)] *)
Definition on_message (st : State World) (topic buf : string)
  : Res unit * World * list Event :=
  match JSON_parse buf with
  | None => (Ok tt, world st, [Log NonJson])
  | Some raw => handle st topic raw
  end.

Definition set_world (st : State World) (w : World) : State World :=
  mkState (client st) (io st) (mqttPublisher st) (mqtt_resolves st) w.

Definition set_io (st : State World) (b : bool) : State World :=
  mkState (client st) b (mqttPublisher st) (mqtt_resolves st) (world st).

(** The handler run on a sequence of deliveries, one after the
    other; a rejected invocation does not stop the subscription. *)
Fixpoint deliver (st : State World) (msgs : list (string * string))
  : World * list Event :=
  match msgs with
  | [] => (world st, [])
  | (topic, buf) :: rest =>
      let '(_, w, es) := on_message st topic buf in
      let '(w', es') := deliver (set_world st w) rest in
      (w', (es ++ es')%list)
  end.
End WithEnvironment.

End Router.
Import Router.

(** ** The command dispatcher ([sendDeviceControl]) *)

Module DeviceControl.

Record Sent := mkSent {
  sent_ok : bool;
  sent_topic : string;
  sent_payload : value
}.

Section WithEnvironment.
Context `{Builtins} {World : Type} `{Collaborators World}.

(** [getMqtt()]: the cached publisher, else the result of the
    [require], which is cached when it succeeds. *)
Definition getMqtt (st : State World) : State World * bool :=
  if mqttPublisher st then (st, true)
  else (mkState (client st) (io st) (mqtt_resolves st) (mqtt_resolves st)
                (world st),
        mqtt_resolves st).

Definition control_payload (device command : value) (now : string) : value :=
  obj [("deviceId", get device "deviceId");
       ("homeId", get device "homeId");
       ("command", command);
       ("ts", VStr now)].

Definition sendDeviceControl (st : State World) (deviceId command : value)
  : Res Sent * State World * list Event :=
  let '(w, found) := Device_findOne (world st) deviceId in
  let st := set_world st w in
  match found with
  | Throw e => (Throw e, st, [])
  | Ok device =>
      if negb (truthy device)
      then (Throw (mkError "Device not found" (Some 404%nat)), st, [])
      else
        let '(st, mqtt) := getMqtt st in
        if negb mqtt
        then (Throw (mkError "MQTT publisher not available" (Some 500%nat)),
              st, [])
        else
          match get device "type" with
          | VStr ty =>
              let topic := "shega/" ++ toLowerCase ty ++ "/control" in
              let payload := control_payload device command (clock w) in
              match publish st topic payload with
              | Throw e => (Throw e, st, [])
              | Ok es => (Ok (mkSent true topic payload), st, es)
              end
          | _ => (Throw TypeError, st, [])
          end
  end.
End WithEnvironment.

End DeviceControl.
Import DeviceControl.

(** ** The sockets module: handshake and rooms ([init]) *)

Module Handshake.

(** [s.split(c)] for a separator [c] of one character. *)
Fixpoint split (c : ascii) (s : string) : list string :=
  match s with
  | EmptyString => [EmptyString]
  | String a r =>
      if Ascii.eqb a c then EmptyString :: split c r
      else match split c r with
           | x :: xs => String a x :: xs
           | [] => [String a EmptyString]
           end
  end.

Definition startsWith (s p : string) : bool :=
  match strip_prefix p s with
  | Some _ => true
  | None => false
  end.

(** What the middleware reads of [socket.handshake]: the
    [authorization] header, when one was sent, and [auth.token]. *)
Record Hello := mkHello {
  authorization : option string;
  auth_token : value
}.

(** [viaAuth || (hdr.startsWith('Bearer ') ? hdr.split(' ')[1] : null)] *)
Definition presented_token (h : Hello) : value :=
  let hdr := default EmptyString (authorization h) in
  Js.or (auth_token h)
        (if startsWith hdr "Bearer "
         then match split " " hdr with
              | _ :: t :: _ => VStr t
              | _ => VUndef
              end
         else VNull).

(** [socket.user] *)
Record User := mkUser {
  id : value;
  role : value;
  homes : value
}.

(** [next()] with [socket.user] set, or [next(new Error(reason))]. *)
Inductive Verdict :=
| Accepted (u : User)
| Refused (reason : string).

(** [role === 'admin'] *)
Definition is_admin (role : value) : bool :=
  match role with
  | VStr s => String.eqb s "admin"
  | _ => false
  end.

Section WithVerifier.
(** [jwt.verify(token, process.env.JWT_SECRET)]: the payload of the
    token, or a throw. *)
Variable jwt_verify : value -> Res value.

(** The function given to [io.use]; reading [payload.sub] of a
    nullish payload throws inside the [try]. *)
Definition authenticate (h : Hello) : Verdict :=
  let token := presented_token h in
  if negb (truthy token) then Refused "Missing token"
  else match jwt_verify token with
       | Throw _ => Refused "Invalid token"
       | Ok payload =>
           if nullish payload then Refused "Invalid token"
           else Accepted (mkUser (get payload "sub") (get payload "role")
                                 (Js.or (get payload "homes") (VArr [])))
       end.
End WithVerifier.

(** [socket.join(room)]: the rooms of a socket are a set, kept in the
    order of insertion. *)
Definition join (rooms : list string) (room : string) : list string :=
  if existsb (String.eqb room) rooms then rooms else (rooms ++ [room])%list.

Section WithBuiltins.
Context `{Builtins}.

(** [homes.forEach(h => socket.join(`home:${h}`))] *)
Fixpoint join_homes (hs : list value) (rooms : list string)
  : Res (list string) :=
  match hs with
  | [] => Ok rooms
  | h :: rest =>
      let* x := ToString h in
      join_homes rest (join rooms ("home:" ++ x))
  end.

(** The ['connection'] listener for a socket of identifier [sid],
    which is in its own room from the start: the rooms sent with
    ['ready'].  [homes.forEach] throws when [homes] is no array. *)
Definition on_connection (sid : string) (u : User) : Res (list string) :=
  let rooms := [sid] in
  let rooms := if is_admin (role u) then join rooms "admin" else rooms in
  match homes u with
  | VArr hs => join_homes hs rooms
  | _ => Throw TypeError
  end.
End WithBuiltins.

End Handshake.

(** ** The device scope middleware ([authorizeDeviceParam]) *)

Module Access.

(** The filter given to [Device.findOne]: [{ deviceId }], with
    [homeId: { $in: homes }] for a user who is no admin. *)
Record Query := mkQuery {
  q_deviceId : value;
  q_homeId_in : option value
}.

(** [req.params.deviceId] and [req.user]. *)
Record Request := mkRequest {
  param_deviceId : value;
  user : value
}.

(** [req.device = device; next()], or [next(e)]. *)
Inductive Next :=
| Proceed (device : value)
| Fail (e : Error).

(** [req.user?.k] *)
Definition user_field (req : Request) (k : string) : value :=
  if nullish (user req) then VUndef else get (user req) k.

Definition build_query (req : Request) : Query :=
  mkQuery (param_deviceId req)
          (if Handshake.is_admin (user_field req "role") then None
           else Some (Js.or (user_field req "homes") (VArr []))).

Section WithRegistry.
Context {World : Type}.
(** [Device.findOne(q).lean()] *)
Variable findOne : World -> Query -> World * Res value.

Definition authorizeDeviceParam (w : World) (req : Request) : World * Next :=
  let '(w', found) := findOne w (build_query req) in
  match found with
  | Throw e => (w', Fail e)
  | Ok device =>
      if negb (truthy device)
      then (w', Fail (mkError "Device not found or not accessible"
                              (Some 404%nat)))
      else (w', Proceed device)
  end.
End WithRegistry.

End Access.

(** ** The admin service: the reducers of [getHomeDetail] *)

Module Admin.

(** A device document as [lean()] returns it: its plain fields and
    its [lastSeenAt] date in milliseconds, when it has one. *)
Record DeviceDoc := mkDoc {
  fields : value;
  lastSeenAt : option Z
}.

(** The names every object inherits from [Object.prototype]: on a
    fresh [{}] they read as something else than [undefined]. *)
Definition Object_prototype_names : list string :=
  ["constructor"; "hasOwnProperty"; "isPrototypeOf"; "propertyIsEnumerable";
   "toLocaleString"; "toString"; "valueOf"; "__proto__";
   "__defineGetter__"; "__defineSetter__"; "__lookupGetter__";
   "__lookupSetter__"].

(** [acc[k] = (acc[k] || 0) + 1] for a name [k] that is not inherited. *)
Definition bump (acc : gmap string nat) (k : string) : gmap string nat :=
  <[k := S (default 0%nat (acc !! k))]> acc.

Section WithBuiltins.
Context `{Builtins}.

(** [devices.reduce((acc, d) => { acc[d.f] = (acc[d.f] || 0) + 1;
    return acc; }, acc)]; [None] stands for the runs that are left
    aside: those where the conversion of [d.f] to a property name
    throws, and those that meet an inherited name. *)
Fixpoint count_by (f : string) (devices : list DeviceDoc)
         (acc : gmap string nat) : option (gmap string nat) :=
  match devices with
  | [] => Some acc
  | d :: rest =>
      match ToString (get (fields d) f) with
      | Throw _ => None
      | Ok k =>
          if existsb (String.eqb k) Object_prototype_names then None
          else count_by f rest (bump acc k)
      end
  end.

Definition statusCounts (devices : list DeviceDoc) : option (gmap string nat) :=
  count_by "status" devices ∅.

Definition byTypeCounts (devices : list DeviceDoc) : option (gmap string nat) :=
  count_by "type" devices ∅.
End WithBuiltins.

(** [(!max || (d.lastSeenAt && d.lastSeenAt > max)) ? d.lastSeenAt : max];
    [None] is [null] or [undefined]. *)
Definition later (max : option Z) (d : DeviceDoc) : option Z :=
  match max with
  | None => lastSeenAt d
  | Some m =>
      match lastSeenAt d with
      | Some t => if (m <? t)%Z then Some t else Some m
      | None => Some m
      end
  end.

(** The [lastSeenAt] of the result: [devices.reduce(..., null)]. *)
Definition lastSeen (devices : list DeviceDoc) : option Z :=
  fold_left later devices None.

Definition totalDevices (devices : list DeviceDoc) : nat := length devices.

End Admin.

(** ** The simulator: identifiers of homes and devices *)

Module Simulator.

(** [String(n)] for a natural number [n]. *)
Definition decimal (n : nat) : string :=
  NilEmpty.string_of_uint (Nat.to_uint n).

(** [s.padStart(2, "0")] *)
Definition padStart2 (s : string) : string :=
  match String.length s with
  | 0%nat => "00"
  | 1%nat => "0" ++ s
  | _ => s
  end.

(** [`HOME_${String(idx+1).padStart(2,"0")}`] *)
Definition homeId_of (idx : nat) : string :=
  "HOME_" ++ padStart2 (decimal (idx + 1)).

Definition air_deviceId (idx : nat) : string := "AIR_" ++ homeId_of idx.
Definition stove_deviceId (idx : nat) : string := "STOVE_" ++ homeId_of idx.

(** What a control message can change of a stove node. *)
Record Stove := mkStove {
  fanOn : bool;
  buzzerOn : bool
}.

(** [parts[parts.length - 1]] for [parts = topic.split("/")]. *)
Definition last_part (topic : string) : string :=
  List.last (Handshake.split "/" topic) EmptyString.

Definition switch (v : value) (old : bool) : bool :=
  match v with
  | VBool b => b
  | _ => old
  end.

Section WithBuiltins.
Context `{Builtins}.

(** The ['message'] listener of the simulator on the stoves of
    [ST.populatedStoves]; a text that does not parse and a [null]
    payload end in the [catch], which only logs. *)
Definition on_control (stoves : gmap string Stove) (topic message : string)
  : gmap string Stove :=
  match JSON_parse message with
  | None => stoves
  | Some payload =>
      let targetId := last_part topic in
      if String.eqb targetId EmptyString then stoves
      else match stoves !! targetId with
           | None => stoves
           | Some stove =>
               if nullish payload then stoves
               else <[targetId :=
                        mkStove (switch (get payload "fanOn") (fanOn stove))
                                (switch (get payload "buzzerOn")
                                        (buzzerOn stove))]> stoves
           end
  end.
End WithBuiltins.

End Simulator.

(** ** A sample deployment, to run the model on concrete messages *)

Module Sample.

(** The outside world: whether the registry and the store accept
    writes, and the devices the registry knows. *)
Record World := mkWorld {
  registry_up : bool;
  store_up : bool;
  devices : list value
}.

Definition instant : string := "2024-01-01T00:00:00.000Z".

Definition num (z : Z) : value := VNum (Fin (inject_Z z)).

Definition air_reading : value :=
  obj [("ts", VStr "2024-01-01T00:00:00Z");
       ("deviceId", VStr "AIR_HOME_01");
       ("co2", num 1700);
       ("pm25", num 40)].

Definition calm_reading : value :=
  obj [("homeId", VStr "HOME_02");
       ("deviceId", VStr "AIR_HOME_02");
       ("co2_ppm", num 600);
       ("pm25_ugm3", num 12)].

Definition odd_stream_reading : value :=
  obj [("homeId", VStr "H");
       ("deviceId", VStr "D");
       ("stream", VStr "foo");
       ("co2", num 500)].

Definition empty_reading : value := obj [].

(** A reading whose home is an object with a property [toString],
    and one that states its stream in lower case. *)
Definition opaque_home_reading : value :=
  obj [("homeId", obj [("toString", num 1)]);
       ("deviceId", VStr "AIR_HOME_01");
       ("co2", num 1700)].

Definition lower_stream_reading : value :=
  obj [("homeId", VStr "HOME_02");
       ("deviceId", VStr "STOVE_HOME_02");
       ("stream", VStr "stove")].

Definition stove_legacy : value := obj [("deviceId", VStr "STOVE_HOME_07")].

(** The texts the sample parser understands, by name; any other text
    is malformed. *)
Definition texts : list (string * value) :=
  [("air", air_reading);
   ("calm", calm_reading);
   ("odd", odd_stream_reading);
   ("empty", empty_reading);
   ("opaque", opaque_home_reading);
   ("lower", lower_stream_reading);
   ("null", VNull)].

Fixpoint assoc (k : string) (l : list (string * value)) : option value :=
  match l with
  | [] => None
  | (k', v) :: rest => if String.eqb k k' then Some v else assoc k rest
  end.

(** The case mappings on texts of ASCII characters, which the
    sample texts are. *)
Definition upper_ascii (c : ascii) : ascii :=
  let n := nat_of_ascii c in
  if (97 <=? n)%nat && (n <=? 122)%nat then ascii_of_nat (n - 32) else c.

Definition lower_ascii (c : ascii) : ascii :=
  let n := nat_of_ascii c in
  if (65 <=? n)%nat && (n <=? 90)%nat then ascii_of_nat (n + 32) else c.

Fixpoint map_string (f : ascii -> ascii) (s : string) : string :=
  match s with
  | EmptyString => EmptyString
  | String c r => String (f c) (map_string f r)
  end.

(** The case mappings on texts of ASCII characters. *)
Definition ascii_upper : string -> string := map_string upper_ascii.
Definition ascii_lower : string -> string := map_string lower_ascii.

(** No sample message needs the text of a number. *)
#[global] Instance builtins : Builtins := {
  number_to_string := fun _ => "0";
  toUpperCase := ascii_upper;
  toLowerCase := ascii_lower;
  JSON_parse := fun s => assoc s texts;
  Date_toISOString := fun v => match v with VStr s => Some s | _ => None end
}.

Definition has_id (s : string) (d : value) : bool :=
  match get d "deviceId" with
  | VStr s' => String.eqb s s'
  | _ => false
  end.

Fixpoint find_device (id : value) (ds : list value) : value :=
  match ds with
  | [] => VNull
  | d :: rest =>
      match id with
      | VStr s => if has_id s d then d else find_device id rest
      | _ => VNull
      end
  end.

Definition store_failure : Error := mkError "store unavailable" None.

#[global] Instance collaborators : Collaborators World := {
  clock := fun _ => instant;
  upsertFromIngest := fun w a =>
    (w, if registry_up w then Ok (obj [("_id", VStr "ref")])
        else Throw store_failure);
  saveTelemetry := fun w a =>
    (w, if store_up w
        then Ok (obj [("homeId", s_homeId a); ("deviceId", s_deviceId a);
                      ("stream", s_stream a)])
        else Throw store_failure);
  Device_findOne := fun w id => (w, Ok (find_device id (devices w)))
}.

Definition stove_02 : value :=
  obj [("deviceId", VStr "STOVE_HOME_02");
       ("homeId", VStr "HOME_02");
       ("type", VStr "STOVENODE")].

Definition healthy : World := mkWorld true true [stove_02].

(** The server after [startMqtt] and [sockets.init]. *)
Definition running : State World := mkState true true false true healthy.

(** The same server when the store refuses writes, and when
    [require('../mqtt')] does not resolve. *)
Definition store_down : State World :=
  mkState true true false true (mkWorld true false [stove_02]).

Definition no_publisher : State World :=
  mkState true true false false healthy.

Definition reading (v : value) : Payload :=
  mkPayload v VUndef VUndef VUndef VUndef VUndef VUndef VUndef VUndef
            VUndef VUndef.

(** A verifier that knows two tokens. *)
Definition verify (token : value) : Res value :=
  match token with
  | VStr t =>
      if String.eqb t "t-admin"
      then Ok (obj [("sub", VStr "u1"); ("role", VStr "admin")])
      else if String.eqb t "t-user"
      then Ok (obj [("sub", VStr "u2"); ("role", VStr "user");
                    ("homes", VArr [VStr "HOME_02"])])
      else Throw (mkError "jwt malformed" None)
  | _ => Throw (mkError "jwt must be a string" None)
  end.

(** A registry that answers a filter with the first device whose
    [deviceId] is the one asked for and whose [homeId] is among the
    homes of the filter, when it has any. *)
Definition home_in (d homes : value) : bool :=
  match homes, get d "homeId" with
  | VArr hs, VStr h =>
      existsb (fun x => match x with
                        | VStr s => String.eqb s h
                        | _ => false
                        end) hs
  | _, _ => false
  end.

Definition answers (q : Access.Query) (d : value) : bool :=
  match Access.q_deviceId q with
  | VStr s => has_id s d
  | _ => false
  end
  && match Access.q_homeId_in q with
     | None => true
     | Some homes => home_in d homes
     end.

Fixpoint find_by (q : Access.Query) (ds : list value) : value :=
  match ds with
  | [] => VNull
  | d :: rest => if answers q d then d else find_by q rest
  end.

Definition findOne (w : World) (q : Access.Query) : World * Res value :=
  (w, Ok (find_by q (devices w))).

Definition user_02 : value :=
  obj [("role", VStr "user"); ("homes", VArr [VStr "HOME_02"])].

(** A reading that names its device under the alias [device]. *)
Definition alias_reading : value :=
  obj [("device", VStr "AIR_HOME_01"); ("co2", num 500)].

(** The server before [startMqtt]. *)
Definition stopped : State World := mkState false true false true healthy.

(** A reading with measurements at the top and an empty list under
    [payload]. *)
Definition shadowed_reading : value :=
  obj [("homeId", VStr "HOME_02"); ("deviceId", VStr "AIR_HOME_02");
       ("co2", num 2000); ("payload", VArr [])].

(** A parser that reads the text ["cmd"] as the payload of a command
    for the stove of home 2. *)
Definition command_parser : Builtins := {|
  number_to_string := fun _ => "0";
  toUpperCase := ascii_upper;
  toLowerCase := ascii_lower;
  JSON_parse := fun s =>
    if String.eqb s "cmd"
    then Some (control_payload stove_02 (obj [("fanOn", VBool true)]) instant)
    else None;
  Date_toISOString := fun _ => None
|}.

Definition two_stoves : gmap string Simulator.Stove :=
  <[Simulator.stove_deviceId 0 := Simulator.mkStove false false]>
    (<[Simulator.stove_deviceId 1 := Simulator.mkStove false false]> ∅).

(** Three devices of one home, as the admin service reads them. *)
Definition fleet : list Admin.DeviceDoc :=
  [Admin.mkDoc (obj [("status", VStr "online"); ("type", VStr "AIRNODE")])
               (Some 1000%Z);
   Admin.mkDoc (obj [("status", VStr "offline"); ("type", VStr "STOVENODE")])
               None;
   Admin.mkDoc (obj [("status", VStr "online"); ("type", VStr "STOVENODE")])
               (Some 4000%Z)].

End Sample.

(** ** Vocabulary of the statements *)

Module Spec.

(** What an evaluation owes one metric with an optional warn tier and
    a danger tier, when "reaching" a threshold [th] with a value [q]
    is [reaches th q]: a value that is no finite number gives no item;
    a value reaching the danger threshold gives one danger item and
    nothing else; a value reaching only the warn threshold gives one
    warn item; a value reaching neither gives no item.  The [limit] of
    an item is the lowest threshold of its metric. *)
Definition tier_rule (reaches : Q -> Q -> Prop) (t : AlertType) (v : value)
           (warn_at : option Q) (danger_at : Q) (items : list AlertItem)
  : Prop :=
  let lowest := default danger_at warn_at in
  (isFiniteNumber v = false -> items = [])
  /\ (forall q, v = VNum (Fin q) -> reaches danger_at q ->
                items = [mkItem t danger v lowest])
  /\ (forall q w, v = VNum (Fin q) -> warn_at = Some w ->
                  ~ reaches danger_at q -> reaches w q ->
                  items = [mkItem t warn v lowest])
  /\ (forall q, v = VNum (Fin q) -> ~ reaches lowest q -> items = []).

(** The events that carry an alert: a publication on the alerts
    channel, an alert handed to the sockets module, an [alert] emitted
    by it. *)
Definition is_alert_event (e : Event) : bool :=
  match e with
  | BusPublish topic _ => String.eqb topic "shega/alerts"
  | Push alert _ => true
  | SocketEmit e => String.eqb (Sockets.event e) "alert"
  | _ => false
  end.

Definition alert_events (es : list Event) : list Event :=
  List.filter is_alert_event es.

Definition is_emit (e : Event) : bool :=
  match e with
  | SocketEmit _ => true
  | _ => false
  end.

(** A trace without what the sockets module emitted. *)
Definition without_emits (es : list Event) : list Event :=
  List.filter (fun e => negb (is_emit e)) es.

(** The calls of the registry, of the store and of the sockets module
    in a trace. *)
Definition is_call (e : Event) : bool :=
  match e with
  | RegistryUpsert _ _ | StoreAppend _ _ | Push _ _ | SocketEmit _ => true
  | _ => false
  end.

(** [sub] occurs in [s] after the prefix [pre]. *)
Definition occurs_at (sub s pre : string) : Prop :=
  exists post, s = pre ++ sub ++ post.

Definition contains (s sub : string) : Prop :=
  exists pre, occurs_at sub s pre.

(** [h] is ["HOME_"] followed by two decimal digits. *)
Definition home_code (h : string) : Prop :=
  exists d1 d2, is_digit d1 = true /\ is_digit d2 = true
                /\ h = "HOME_" ++ String d1 (String d2 EmptyString).

(** [out] is the first of the [candidates] that is a finite number,
    and [undefined] when none is. *)
Definition first_finite (candidates : list value) (out : value) : Prop :=
  (exists skipped rest,
      candidates = (skipped ++ out :: rest)%list
      /\ Forall (fun v => isFiniteNumber v = false) skipped
      /\ isFiniteNumber out = true)
  \/ (Forall (fun v => isFiniteNumber v = false) candidates /\ out = VUndef).

(** [out] is [v] when [v] is of boolean type, and [undefined] for
    any other [v], truthy or not. *)
Definition strictly_boolean (v out : value) : Prop :=
  match v with
  | VBool b => out = VBool b
  | _ => out = VUndef
  end.

Section Paths.
Context `{Builtins} {World : Type} `{Collaborators World}.

(** The ways the handler can go for a parsed message on a telemetry
    topic, with the trace of each. *)
Inductive telemetry_path (st : State World) (topic : string) (raw : value)
  : Res unit * World * list Event -> Prop :=
| path_throws (e : Error) :
    normalizeMessage (clock (world st)) topic raw = Throw e ->
    telemetry_path st topic raw (Throw e, world st, [])
| path_line_throws (msg : Msg) (e : Error) :
    normalizeMessage (clock (world st)) topic raw = Ok msg ->
    received_line msg = Throw e ->
    telemetry_path st topic raw (Throw e, world st, [])
| path_missing_ids (msg : Msg) :
    normalizeMessage (clock (world st)) topic raw = Ok msg ->
    received_line msg = Ok Received ->
    truthy (homeId msg) && truthy (deviceId msg) = false ->
    telemetry_path st topic raw
      (Ok tt, world st, [Log Received; Log MissingIds])
| path_no_stream (msg : Msg) :
    normalizeMessage (clock (world st)) topic raw = Ok msg ->
    received_line msg = Ok Received ->
    truthy (homeId msg) && truthy (deviceId msg) = true ->
    truthy (stream msg) = false ->
    telemetry_path st topic raw
      (Ok tt, world st, [Log Received; Log NoStream])
| path_registry_fails (msg : Msg) (w1 : World) (e : Error) :
    normalizeMessage (clock (world st)) topic raw = Ok msg ->
    received_line msg = Ok Received ->
    truthy (homeId msg) && truthy (deviceId msg) = true ->
    truthy (stream msg) = true ->
    let ua := mkUpsert (homeId msg) (deviceId msg) (stream msg) in
    upsertFromIngest (world st) ua = (w1, Throw e) ->
    telemetry_path st topic raw
      (Ok tt, w1, [Log Received; RegistryUpsert ua false; Log MessageError])
| path_store_fails (msg : Msg) (w1 w2 : World) (device : value) (e : Error) :
    normalizeMessage (clock (world st)) topic raw = Ok msg ->
    received_line msg = Ok Received ->
    truthy (homeId msg) && truthy (deviceId msg) = true ->
    truthy (stream msg) = true ->
    let ua := mkUpsert (homeId msg) (deviceId msg) (stream msg) in
    upsertFromIngest (world st) ua = (w1, Ok device) ->
    let sa := mkSave (homeId msg) (deviceId msg) (stream msg) (payload msg)
                     (ts msg)
                     (if nullish device then VUndef else get device "_id") in
    saveTelemetry w1 sa = (w2, Throw e) ->
    telemetry_path st topic raw
      (Ok tt, w2, [Log Received; RegistryUpsert ua true;
                   StoreAppend sa false; Log MessageError])
| path_saved (msg : Msg) (w1 w2 : World) (device doc : value) :
    normalizeMessage (clock (world st)) topic raw = Ok msg ->
    received_line msg = Ok Received ->
    truthy (homeId msg) && truthy (deviceId msg) = true ->
    truthy (stream msg) = true ->
    let ua := mkUpsert (homeId msg) (deviceId msg) (stream msg) in
    upsertFromIngest (world st) ua = (w1, Ok device) ->
    let sa := mkSave (homeId msg) (deviceId msg) (stream msg) (payload msg)
                     (ts msg)
                     (if nullish device then VUndef else get device "_id") in
    saveTelemetry w1 sa = (w2, Ok doc) ->
    telemetry_path st topic raw
      (Ok tt, w2,
       ([Log Received; RegistryUpsert ua true; StoreAppend sa true; Log Saved]
        ++ (if nullish doc then [] else push (io st) telemetry doc)
        ++ maybePublishAlerts st w2 msg)%list).
End Paths.

(** A parsed message whose fields the handler can convert: it is
    neither [null] nor [undefined], and its [ts], its [stream], the
    first truthy one of its home aliases and its device identifier
    (or, without one, its [device]) convert to a primitive. *)
Definition readable (raw : value) : bool :=
  negb (nullish raw)
  && converts (get raw "ts")
  && converts (Js.or (Js.or (get raw "homeId") (get raw "home")) (get raw "h"))
  && converts (Js.or (get raw "deviceId") (get raw "device"))
  && converts (get raw "stream").


(** The thresholds of [maybePublishAlerts]: the one an item reports
    as its [limit], and the one above which its level is danger. *)
Definition lowest_limit (t : AlertType) : Q :=
  match t with
  | CO2 => 1000
  | CO => 35
  | PM2_5 => 35
  | STOVE_TEMP => 250
  end.

Definition danger_limit (t : AlertType) : Q :=
  match t with
  | CO2 => 1500
  | CO => 35
  | PM2_5 => 100
  | STOVE_TEMP => 250
  end.

(** The field of the payload a metric is read from. *)
Definition metric_of (t : AlertType) (p : Payload) : value :=
  match t with
  | CO2 => co2 p
  | CO => co p
  | PM2_5 => pm25 p
  | STOVE_TEMP => stove_temp_c p
  end.

Definition absent_or_finite (v : value) : Prop :=
  v = VUndef \/ exists q, v = VNum (Fin q).

Definition absent_or_boolean (v : value) : Prop :=
  v = VUndef \/ exists b, v = VBool b.

Definition is_upsert (e : Event) : bool :=
  match e with
  | RegistryUpsert _ _ => true
  | _ => false
  end.

Definition is_append (e : Event) : bool :=
  match e with
  | StoreAppend _ _ => true
  | _ => false
  end.

(** [io.to(room).emit(...)] reaches the sockets that are in [room]. *)
Definition addressed (rooms : list string) (e : Sockets.Emit) : Prop :=
  In (Sockets.room e) rooms.

(** A document answers a filter when it has the [deviceId] asked for
    and, if the filter names homes, its [homeId] is one of them. *)
Definition query_matches (q : Access.Query) (d : value) : Prop :=
  get d "deviceId" = Access.q_deviceId q
  /\ match Access.q_homeId_in q with
     | None => True
     | Some (VArr hs) => In (get d "homeId") hs
     | Some _ => False
     end.

(** What is asked of [Device.findOne]: a document it returns answers
    the filter it was given. *)
Definition honours {World : Type}
           (findOne : World -> Access.Query -> World * Res value) : Prop :=
  forall w q w' d,
    findOne w q = (w', Ok d) -> truthy d = true -> query_matches q d.

(** The identifier of home [idx] of the simulator is a code that
    the pattern of [extractHomeFromDevice] matches whole. *)
Definition coded (idx : nat) : bool :=
  match match_here (Simulator.homeId_of idx) with
  | Some m => String.eqb m (Simulator.homeId_of idx)
  | None => false
  end.

(** The sum of the counts of a table. *)
Definition total (m : gmap string nat) : nat :=
  map_fold (fun _ n s => (n + s)%nat) 0%nat m.

(** How many of the [devices] have the text [k] in their field [f]. *)
Definition occurrences `{Builtins} (f k : string)
           (devices : list Admin.DeviceDoc) : nat :=
  length (List.filter
            (fun d => String.eqb (toStr (get (Admin.fields d) f)) k)
            devices).

End Spec.
Import Spec.

(** * Properties *)

(** ** Threshold evaluation *)

Section Thresholds.

Lemma gt_iff (q lim : Q) : gt (VNum (Fin q)) lim = true <-> (lim < q)%Q.
Proof.
  simpl. rewrite negb_true_iff. split.
  - intros Hb. apply Qnot_le_lt. intros Hle.
    apply Qle_bool_iff in Hle. congruence.
  - intros Hlt. destruct (Qle_bool q lim) eqn:E; [|reflexivity].
    apply Qle_bool_iff in E. exfalso. exact (Qlt_not_le _ _ Hlt E).
Qed.

Lemma gt_false_iff (q lim : Q) :
  gt (VNum (Fin q)) lim = false <-> ~ (lim < q)%Q.
Proof.
  rewrite <- gt_iff. destruct (gt (VNum (Fin q)) lim); split; congruence.
Qed.

(** The items of each metric are those pushed by its own [if]. *)
Ltac own_items p :=
  unfold items_of, evaluate;
  destruct (isFiniteNumber (co2 p) && gt (co2 p) 1000),
           (isFiniteNumber (co p) && gt (co p) 35),
           (isFiniteNumber (pm25 p) && gt (pm25 p) 35),
           (isFiniteNumber (stove_temp_c p) && gt (stove_temp_c p) 250);
  reflexivity.

Lemma items_of_CO2 (p : Payload) :
  items_of CO2 (evaluate p) =
  if isFiniteNumber (co2 p) && gt (co2 p) 1000
  then [mkItem CO2 (if gt (co2 p) 1500 then danger else warn) (co2 p) 1000]
  else [].
Proof. own_items p. Qed.

Lemma items_of_CO (p : Payload) :
  items_of CO (evaluate p) =
  if isFiniteNumber (co p) && gt (co p) 35
  then [mkItem CO danger (co p) 35]
  else [].
Proof. own_items p. Qed.

Lemma items_of_PM2_5 (p : Payload) :
  items_of PM2_5 (evaluate p) =
  if isFiniteNumber (pm25 p) && gt (pm25 p) 35
  then [mkItem PM2_5 (if gt (pm25 p) 100 then danger else warn) (pm25 p) 35]
  else [].
Proof. own_items p. Qed.

Lemma items_of_STOVE_TEMP (p : Payload) :
  items_of STOVE_TEMP (evaluate p) =
  if isFiniteNumber (stove_temp_c p) && gt (stove_temp_c p) 250
  then [mkItem STOVE_TEMP danger (stove_temp_c p) 250]
  else [].
Proof. own_items p. Qed.

Lemma two_tiers (t : AlertType) (v : value) (w d : Q) (items : list AlertItem) :
  (w <= d)%Q ->
  items = (if isFiniteNumber v && gt v w
           then [mkItem t (if gt v d then danger else warn) v w]
           else []) ->
  tier_rule Qlt t v (Some w) d items.
Proof.
  intros Hwd ->. unfold tier_rule. simpl. repeat split.
  - intros ->. reflexivity.
  - intros q -> Hd.
    assert (Hw : (w < q)%Q) by (eapply Qle_lt_trans; eassumption).
    apply gt_iff in Hd, Hw. simpl isFiniteNumber. rewrite Hd, Hw. reflexivity.
  - intros q w' -> [= <-] Hd Hw.
    apply gt_false_iff in Hd. apply gt_iff in Hw.
    simpl isFiniteNumber. rewrite Hd, Hw. reflexivity.
  - intros q -> Hw. apply gt_false_iff in Hw.
    simpl isFiniteNumber. rewrite Hw. reflexivity.
Qed.

Lemma one_tier (t : AlertType) (v : value) (d : Q) (items : list AlertItem) :
  items = (if isFiniteNumber v && gt v d then [mkItem t danger v d] else []) ->
  tier_rule Qlt t v None d items.
Proof.
  intros ->. unfold tier_rule. simpl. repeat split.
  - intros ->. reflexivity.
  - intros q -> Hd. apply gt_iff in Hd.
    simpl isFiniteNumber. rewrite Hd. reflexivity.
  - intros q w' _ [=].
  - intros q -> Hd. apply gt_false_iff in Hd.
    simpl isFiniteNumber. rewrite Hd. reflexivity.
Qed.

(** C1 (as amended).  For every canonical payload, each metric is
    treated by strict comparison: CO2 with warn 1000 and danger 1500,
    CO with danger 35, PM2.5 with warn 35 and danger 100, stove
    temperature with danger 250.  A value that is no finite number
    contributes no item; a value above the danger threshold gives
    exactly one danger item for its metric and no warn item; otherwise
    a value above the warn threshold gives exactly one warn item;
    otherwise the metric gives no item.  In particular [co2 = 1600]
    gives exactly the item CO2/danger/1600/1000 for CO2. *)
Theorem C1_threshold_tiers (p : Payload) :
  tier_rule Qlt CO2 (co2 p) (Some 1000%Q) 1500 (items_of CO2 (evaluate p))
  /\ tier_rule Qlt CO (co p) None 35 (items_of CO (evaluate p))
  /\ tier_rule Qlt PM2_5 (pm25 p) (Some 35%Q) 100 (items_of PM2_5 (evaluate p))
  /\ tier_rule Qlt STOVE_TEMP (stove_temp_c p) None 250
               (items_of STOVE_TEMP (evaluate p))
  /\ (co2 p = VNum (Fin 1600) ->
      items_of CO2 (evaluate p) = [mkItem CO2 danger (VNum (Fin 1600)) 1000]).
Proof.
  refine (conj _ (conj _ (conj _ (conj _ _)))).
  - apply two_tiers; [discriminate | apply items_of_CO2].
  - apply one_tier, items_of_CO.
  - apply two_tiers; [discriminate | apply items_of_PM2_5].
  - apply one_tier, items_of_STOVE_TEMP.
  - intros E. rewrite items_of_CO2, E. reflexivity.
Qed.

Lemma C1_threshold_tiers_witness :
  items_of CO2 (evaluate (Sample.reading (Sample.num 1600)))
  = [mkItem CO2 danger (VNum (Fin 1600)) 1000].
Proof.
  apply (C1_threshold_tiers (Sample.reading (Sample.num 1600))).
  reflexivity.
Defined.

(** C1 as stated fails: with "greater than or equal", a CO2 value of
    exactly 1500 would have to give a danger item; the evaluator gives
    a warn item. *)
Lemma C1_boundary_counterexample :
  ~ (forall p : Payload,
        tier_rule Qle CO2 (co2 p) (Some 1000%Q) 1500
                  (items_of CO2 (evaluate p))).
Proof.
  intros Hall.
  destruct (Hall (Sample.reading (Sample.num 1500))) as (_ & Hd & _).
  specialize (Hd (inject_Z 1500) eq_refl).
  assert (Hle : (1500 <= inject_Z 1500)%Q) by discriminate.
  specialize (Hd Hle). vm_compute in Hd. discriminate Hd.
Qed.

End Thresholds.

(** ** Strings *)

Section Strings.

Lemma strip_prefix_spec (p s r : string) :
  strip_prefix p s = Some r <-> s = p ++ r.
Proof.
  revert s. induction p as [|a p IH]; intros s; simpl.
  - split; [intros [= ->]; reflexivity | intros ->; reflexivity].
  - destruct s as [|b s].
    + split; discriminate.
    + destruct (Ascii.eqb_spec a b) as [->|Hne].
      * rewrite IH. split; [intros ->; reflexivity | intros [= ->]; reflexivity].
      * split; [discriminate | intros [= E _]; congruence].
Qed.

Lemma strip_prefix_app (p r : string) : strip_prefix p (p ++ r) = Some r.
Proof. apply strip_prefix_spec. reflexivity. Qed.

Lemma includes_here (s sub r : string) :
  strip_prefix sub s = Some r -> includes s sub = true.
Proof. intros E. destruct s; simpl; rewrite E; reflexivity. Qed.

Lemma includes_contains (s sub : string) :
  includes s sub = true <-> contains s sub.
Proof.
  split.
  - induction s as [|a s IH]; simpl.
    + destruct (strip_prefix sub EmptyString) as [r|] eqn:E; [|discriminate].
      intros _. apply strip_prefix_spec in E.
      exists EmptyString, r. exact E.
    + destruct (strip_prefix sub (String a s)) as [r|] eqn:E.
      * intros _. apply strip_prefix_spec in E. exists EmptyString, r. exact E.
      * intros Hin. destruct (IH Hin) as (pre & post & ->).
        exists (String a pre), post. reflexivity.
  - intros (pre & post & ->).
    induction pre as [|a pre IH].
    + apply (includes_here _ _ post). exact (strip_prefix_app sub post).
    + change (String a pre ++ sub ++ post) with (String a (pre ++ sub ++ post)).
      simpl. rewrite IH.
      destruct (strip_prefix sub (String a (pre ++ sub ++ post))); reflexivity.
Qed.

Lemma match_here_spec (s h : string) :
  match_here s = Some h <-> home_code h /\ exists post, s = h ++ post.
Proof.
  unfold match_here. split.
  - destruct (strip_prefix "HOME_" s) as [[|d1 [|d2 post]]|] eqn:E;
      try discriminate.
    apply strip_prefix_spec in E.
    destruct (is_digit d1) eqn:E1; [|discriminate].
    destruct (is_digit d2) eqn:E2; [|discriminate].
    intros [= <-]. split.
    + exists d1, d2. auto.
    + exists post. exact E.
  - intros ((d1 & d2 & H1 & H2 & ->) & post & ->).
    change (("HOME_" ++ String d1 (String d2 EmptyString)) ++ post)
      with ("HOME_" ++ String d1 (String d2 post)).
    rewrite strip_prefix_app, H1, H2. reflexivity.
Qed.

Lemma match_here_none (s h : string) :
  match_here s = None -> home_code h -> ~ occurs_at h s EmptyString.
Proof.
  intros Hn Hh [post E].
  assert (Hs : match_here s = Some h) by (apply match_here_spec; eauto).
  congruence.
Qed.

(** The match is a home code that occurs in [s], and no home code
    occurs further to the left. *)
Lemma match_HOME_leftmost (s h : string) :
  match_HOME s = Some h ->
  home_code h
  /\ exists pre, occurs_at h s pre
                 /\ forall h' pre', home_code h' -> occurs_at h' s pre' ->
                                    (String.length pre <= String.length pre')%nat.
Proof.
  revert h. induction s as [|a s IH]; intros h.
  - simpl. discriminate.
  - simpl match_HOME. destruct (match_here (String a s)) as [m|] eqn:E.
    + intros [= <-]. apply match_here_spec in E as [Hm [post Hs]].
      split; [exact Hm|]. exists EmptyString. split; [exists post; exact Hs|].
      intros; simpl; lia.
    + intros Hrec. destruct (IH h Hrec) as (Hh & pre & [post Hs] & Hleft).
      split; [exact Hh|]. exists (String a pre). split.
      * exists post. rewrite Hs. reflexivity.
      * intros h' pre' Hh' Ho. destruct pre' as [|b pre'].
        -- exfalso. exact (match_here_none _ _ E Hh' Ho).
        -- destruct Ho as [post' Ho]. injection Ho as _ Ho.
           assert (String.length pre <= String.length pre')%nat
             by (apply (Hleft h'); [exact Hh' | exists post'; exact Ho]).
           simpl; lia.
Qed.

Lemma match_HOME_none (s h : string) :
  match_HOME s = None -> home_code h -> ~ contains s h.
Proof.
  induction s as [|a s IH]; simpl match_HOME.
  - intros _ (d1 & d2 & _ & _ & ->) ([|b pre] & post & E); discriminate.
  - destruct (match_here (String a s)) as [m|] eqn:E; [discriminate|].
    intros Hrec Hh ([|b pre] & Ho).
    + exact (match_here_none _ _ E Hh Ho).
    + destruct Ho as [post Ho]. injection Ho as _ Ho.
      apply (IH Hrec Hh). exists pre, post. exact Ho.
Qed.

Lemma match_HOME_some (s h : string) :
  home_code h -> contains s h -> exists m, match_HOME s = Some m.
Proof.
  intros Hh Hc. destruct (match_HOME s) as [m|] eqn:E; [eauto|].
  exfalso. exact (match_HOME_none _ _ E Hh Hc).
Qed.

End Strings.

(** ** Normalisation *)

Section Normalization.
Context `{Builtins}.

Lemma bind_ok {A B : Type} (r : Res A) (f : A -> Res B) (b : B) :
  bind r f = Ok b -> exists a, r = Ok a /\ f a = Ok b.
Proof. destruct r as [a|e]; [eauto | discriminate]. Qed.

Lemma bind_throw {A B : Type} (r : Res A) (f : A -> Res B) (e : Error) :
  bind r f = Throw e -> r = Throw e \/ exists a, r = Ok a /\ f a = Throw e.
Proof. destruct r as [a|e']; [eauto | intros [= ->]; auto]. Qed.

Lemma or_true (a b : value) : truthy a = true -> Js.or a b = a.
Proof. unfold Js.or. intros ->. reflexivity. Qed.

Lemma or_false (a b : value) : truthy a = false -> Js.or a b = b.
Proof. unfold Js.or. intros ->. reflexivity. Qed.

(** A value that does not convert is an object or an array, which
    are truthy. *)
Lemma falsy_converts (v : value) : truthy v = false -> converts v = true.
Proof. destruct v; try reflexivity; discriminate. Qed.

Lemma ToString_ok (v : value) (s : string) :
  ToString v = Ok s -> converts v = true /\ s = toStr v.
Proof.
  unfold ToString. destruct (converts v); [|discriminate].
  intros [= <-]. auto.
Qed.

Lemma ToString_throw (v : value) (e : Error) :
  ToString v = Throw e -> converts v = false /\ e = TypeError.
Proof.
  unfold ToString. destruct (converts v); [discriminate|].
  intros [= <-]. auto.
Qed.

Lemma ToString_converts (v : value) :
  converts v = true -> ToString v = Ok (toStr v).
Proof. unfold ToString. intros ->. reflexivity. Qed.

Lemma toISO_ok (now : string) (v : value) (s : string) :
  toISO now v = Ok s -> converts v = true.
Proof.
  unfold toISO. destruct (truthy v) eqn:Et; cbn [negb].
  - destruct (converts v); [reflexivity | discriminate].
  - intros _. apply falsy_converts, Et.
Qed.

Lemma toISO_throw (now : string) (v : value) (e : Error) :
  toISO now v = Throw e -> converts v = false /\ e = TypeError.
Proof.
  unfold toISO. destruct (truthy v); cbn [negb]; [|discriminate].
  destruct (converts v); cbn [negb]; [discriminate|].
  intros [= <-]. auto.
Qed.

Lemma extract_ok (d x : value) :
  extractHomeFromDevice d = Ok x ->
  converts d = true
  /\ x = if negb (truthy d) then VUndef
         else match match_HOME (toStr d) with
              | Some m => VStr m
              | None => VUndef
              end.
Proof.
  unfold extractHomeFromDevice. destruct (truthy d) eqn:Et; cbn [negb].
  - intros Hb. apply bind_ok in Hb as (s & Hs & [= <-]).
    apply ToString_ok in Hs as [Hc ->]. auto.
  - intros [= <-]. split; [apply falsy_converts, Et | reflexivity].
Qed.

Lemma extract_throw (d : value) (e : Error) :
  extractHomeFromDevice d = Throw e -> converts d = false /\ e = TypeError.
Proof.
  unfold extractHomeFromDevice. destruct (truthy d); cbn [negb];
    [|discriminate].
  intros Hb. apply bind_throw in Hb as [Hs | (s & _ & [=])].
  apply ToString_throw, Hs.
Qed.

Lemma explicit_ok (raw e : value) :
  explicit_stream raw = Ok e ->
  converts (get raw "stream") = true
  /\ e = Js.and (get raw "stream")
                (VStr (toUpperCase (toStr (get raw "stream")))).
Proof.
  unfold explicit_stream, and_then, Js.and.
  destruct (truthy (get raw "stream")) eqn:Et.
  - intros Hb. apply bind_ok in Hb as (s & Hs & [= <-]).
    apply ToString_ok in Hs as [Hc ->]. auto.
  - intros [= <-]. split; [apply falsy_converts, Et | reflexivity].
Qed.

Lemma explicit_throw (raw : value) (e : Error) :
  explicit_stream raw = Throw e ->
  converts (get raw "stream") = false /\ e = TypeError.
Proof.
  unfold explicit_stream, and_then.
  destruct (truthy (get raw "stream")); [|discriminate].
  intros Hb. apply bind_throw in Hb as [Hs | (s & _ & [=])].
  apply ToString_throw, Hs.
Qed.

Lemma infer_ok (topic : string) (raw v : value) :
  inferStream topic raw = Ok v ->
  v = if includes (toLowerCase topic) "/airnode/" then VStr "AIR"
      else if includes (toLowerCase topic) "/stovenode/" then VStr "STOVE"
      else Js.or (Js.and (get raw "stream")
                         (VStr (toUpperCase (toStr (get raw "stream")))))
                 VUndef.
Proof.
  unfold inferStream. cbv zeta.
  destruct (includes (toLowerCase topic) "/airnode/"); [intros [= <-]; reflexivity|].
  destruct (includes (toLowerCase topic) "/stovenode/"); [intros [= <-]; reflexivity|].
  intros Hb. apply bind_ok in Hb as (e & He & [= <-]).
  apply explicit_ok in He as [_ ->]. reflexivity.
Qed.

Lemma infer_throw (topic : string) (raw : value) (e : Error) :
  inferStream topic raw = Throw e ->
  converts (get raw "stream") = false /\ e = TypeError.
Proof.
  unfold inferStream. cbv zeta.
  destruct (includes (toLowerCase topic) "/airnode/"); [discriminate|].
  destruct (includes (toLowerCase topic) "/stovenode/"); [discriminate|].
  intros Hb. apply bind_throw in Hb as [Hs | (s & _ & [=])].
  apply explicit_throw, Hs.
Qed.

(** What a message that [normalizeMessage] returns is made of. *)
Lemma normalize_ok (now topic : string) (raw : value) (msg : Msg) :
  normalizeMessage now topic raw = Ok msg ->
  let d := get raw "deviceId" in
  let e := get raw "stream" in
  let stated := Js.and e (VStr (toUpperCase (toStr e))) in
  let hinted :=
    if includes (toLowerCase topic) "/airnode/" then VStr "AIR"
    else if includes (toLowerCase topic) "/stovenode/" then VStr "STOVE"
    else Js.or stated VUndef in
  nullish raw = false
  /\ payload msg = canonical_payload (source_of raw)
  /\ homeId msg =
     Js.or (Js.or (Js.or (get raw "homeId") (get raw "home")) (get raw "h"))
           (if negb (truthy d) then VUndef
            else match match_HOME (toStr d) with
                 | Some m => VStr m
                 | None => VUndef
                 end)
  /\ deviceId msg = Js.or (get raw "deviceId") (get raw "device")
  /\ stream msg =
     (let s := Js.or stated hinted in
      if negb (truthy s) then by_presence (canonical_payload (source_of raw))
      else s)
  /\ converts (get raw "ts") = true
  /\ converts e = true
  /\ (truthy (Js.or (Js.or (get raw "homeId") (get raw "home")) (get raw "h"))
      = false -> converts d = true).
Proof.
  unfold normalizeMessage. destruct (nullish raw); [discriminate|].
  intros Hn. cbv zeta.
  apply bind_ok in Hn as (t & Ht & Hn).
  apply bind_ok in Hn as (h & Hh & Hn). cbv zeta in Hn.
  apply bind_ok in Hn as (e & He & Hn).
  apply bind_ok in Hn as (s & Hs & Hn).
  injection Hn as <-. cbn [payload homeId deviceId stream].
  apply toISO_ok in Ht. apply explicit_ok in He as [Hce ->].
  split; [reflexivity|]. split; [reflexivity|].
  unfold or_else in Hh, Hs.
  set (a := Js.or (Js.or (get raw "homeId") (get raw "home")) (get raw "h"))
    in *.
  set (stated := Js.and (get raw "stream")
                        (VStr (toUpperCase (toStr (get raw "stream"))))) in *.
  split; [|split; [reflexivity|split; [|split; [exact Ht|split; [exact Hce|]]]]].
  - destruct (truthy a) eqn:Ea.
    + injection Hh as <-. rewrite (or_true a _ Ea). reflexivity.
    + apply extract_ok in Hh as [_ ->]. rewrite (or_false a _ Ea). reflexivity.
  - destruct (truthy stated) eqn:Es.
    + injection Hs as <-. rewrite !(or_true stated _ Es). reflexivity.
    + apply infer_ok in Hs as ->. rewrite !(or_false stated _ Es). reflexivity.
  - intros Hf. rewrite Hf in Hh. apply extract_ok in Hh as [Hc _]. exact Hc.
Qed.

Lemma pickNumber_first_finite (candidates : list value) :
  first_finite candidates (pickNumber candidates).
Proof.
  induction candidates as [|v rest IH]; simpl.
  - right. split; [constructor | reflexivity].
  - destruct (isFiniteNumber v) eqn:E.
    + left. exists [], rest. repeat split; [constructor | exact E].
    + destruct IH as [(skipped & rest' & Heq & Hsk & Hfin) | [Hall Hu]].
      * left. exists (v :: skipped), rest'. split; [|split].
        -- simpl. f_equal. exact Heq.
        -- constructor; assumption.
        -- exact Hfin.
      * right. split; [constructor; assumption | exact Hu].
Qed.

Lemma strict_bool_strictly (v : value) : strictly_boolean v (strict_bool v).
Proof. destruct v; reflexivity. Qed.

(** C5 (as amended).  The stream of a normalised message is resolved
    in this order.  An explicit [stream] field that reads AIR or STOVE
    once upper-cased wins, whatever the topic and the measurements.
    Without an explicit field (one that is falsy, or whose text is
    empty) the lower-cased topic decides, ["/airnode/"] in it giving
    AIR and else ["/stovenode/"] giving STOVE; otherwise a finite
    stove temperature measurement gives STOVE, else a finite co2, co,
    pm25 or pm10 measurement gives AIR; otherwise the stream is
    [undefined]. *)
Theorem C5_stream_priority (now topic : string) (raw : value) (msg : Msg) :
  normalizeMessage now topic raw = Ok msg ->
  let explicit := get raw "stream" in
  let shown := toUpperCase (toStr explicit) in
  let t := toLowerCase topic in
  let p := payload msg in
  (truthy explicit = true -> shown = "AIR" \/ shown = "STOVE" ->
   stream msg = VStr shown)
  /\ (truthy explicit = false \/ shown = EmptyString ->
      stream msg =
      if includes t "/airnode/" then VStr "AIR"
      else if includes t "/stovenode/" then VStr "STOVE"
      else if isFiniteNumber (stove_temp_c p) then VStr "STOVE"
      else if isFiniteNumber (co2 p) || isFiniteNumber (co p)
              || isFiniteNumber (pm25 p) || isFiniteNumber (pm10 p)
           then VStr "AIR"
           else VUndef).
Proof.
  intros Hn. apply normalize_ok in Hn as (_ & Hp & _ & _ & Hs & _).
  cbv zeta in Hs |- *. rewrite Hs, Hp. clear Hs Hp.
  generalize (canonical_payload (source_of raw)) as p. intros p.
  unfold Js.or, Js.and, by_presence.
  set (e := get raw "stream").
  set (shown := toUpperCase (toStr e)).
  split.
  - intros Et Hshown. rewrite Et.
    assert (Hne : String.eqb shown EmptyString = false)
      by (destruct Hshown as [-> | ->]; reflexivity).
    cbn [truthy negb]. rewrite !Hne. cbn [truthy negb]. rewrite ?Hne.
    reflexivity.
  - intros Hnone.
    destruct (truthy e) eqn:Et.
    + destruct Hnone as [Hx | Hempty]; [discriminate Hx|].
      rewrite Hempty. cbn [truthy String.eqb negb].
      destruct (includes (toLowerCase topic) "/airnode/"); [reflexivity|].
      destruct (includes (toLowerCase topic) "/stovenode/"); reflexivity.
    + cbn [negb]. rewrite ?Et. cbn [negb].
      destruct (includes (toLowerCase topic) "/airnode/"); [reflexivity|].
      destruct (includes (toLowerCase topic) "/stovenode/"); [reflexivity|].
      cbn [negb]. rewrite ?Et. reflexivity.
Qed.

(** C6.  A payload, nested under a [payload] object or flat, that
    carries [pm25_ugm3] as a finite number and no [pm25] field is
    normalised with [pm25] equal to that number.  Every canonical
    numeric field is the first of its aliases that holds a finite
    number ([undefined] when none does), and [fanOn], [buzzerOn] and
    [windowOpen] are taken only from values of boolean type. *)
Theorem C6_alias_mapping (now topic : string) (raw : value) (msg : Msg) :
  normalizeMessage now topic raw = Ok msg ->
  let p := payload msg in
  (forall (m inner : gmap string value) (q : Q),
      raw = VObj m -> m !! "payload" = Some (VObj inner) ->
      inner !! "pm25_ugm3" = Some (VNum (Fin q)) -> inner !! "pm25" = None ->
      pm25 p = VNum (Fin q))
  /\ (forall (m : gmap string value) (q : Q),
         raw = VObj m -> m !! "payload" = None ->
         m !! "pm25_ugm3" = Some (VNum (Fin q)) -> m !! "pm25" = None ->
         pm25 p = VNum (Fin q))
  /\ (let src := source_of raw in
      first_finite [get src "co2"; get src "co2_ppm"] (co2 p)
      /\ first_finite [get src "co"; get src "co_ppm"] (co p)
      /\ first_finite [get src "pm25"; get src "pm25_ugm3";
                       get src "pm2_5"; get src "pm2_5_ugm3"] (pm25 p)
      /\ first_finite [get src "pm10"; get src "pm10_ugm3"] (pm10 p)
      /\ first_finite [get src "temperature_c"; get src "temp_c";
                       get src "temperature"] (temperature_c p)
      /\ first_finite [get src "humidity_pct"; get src "humidity"]
                      (humidity_pct p)
      /\ first_finite [get src "stove_temp_c"; get src "stove_temp"]
                      (stove_temp_c p)
      /\ strictly_boolean (get src "fanOn") (fanOn p)
      /\ strictly_boolean (get src "buzzerOn") (buzzerOn p)
      /\ strictly_boolean (get src "windowOpen") (windowOpen p)).
Proof.
  intros Hn. apply normalize_ok in Hn as (_ & Hp & _). cbv zeta. rewrite Hp.
  split; [|split].
  - intros m inner q -> Hin Hu Hno.
    unfold source_of, canonical_payload, get. rewrite Hin. simpl.
    rewrite Hno, Hu. reflexivity.
  - intros m q -> Hnone Hu Hno.
    unfold source_of, canonical_payload, get. rewrite Hnone. simpl.
    rewrite Hno, Hu. reflexivity.
  - unfold canonical_payload. simpl.
    repeat split; try apply pickNumber_first_finite;
      apply strict_bool_strictly.
Qed.

(** C8.  When none of the aliases [homeId], [home], [h] is present,
    the home of a message comes from its [deviceId]: ["STOVE_HOME_07"]
    gives ["HOME_07"]; in general the home is the leftmost occurrence
    of [HOME_] followed by two digits in the device identifier, and it
    is [undefined] when the identifier is missing or holds no such
    occurrence. *)
Theorem C8_home_from_deviceId (now topic : string) (raw : value) (msg : Msg) :
  normalizeMessage now topic raw = Ok msg ->
  get raw "homeId" = VUndef -> get raw "home" = VUndef ->
  get raw "h" = VUndef ->
  let d := get raw "deviceId" in
  (d = VStr "STOVE_HOME_07" -> homeId msg = VStr "HOME_07")
  /\ (forall h, homeId msg = VStr h ->
                home_code h
                /\ exists pre,
                    occurs_at h (toStr d) pre
                    /\ forall h' pre', home_code h' ->
                                       occurs_at h' (toStr d) pre' ->
                                       (String.length pre <= String.length pre')%nat)
  /\ (truthy d = true ->
      (exists h, home_code h /\ contains (toStr d) h) ->
      exists h, homeId msg = VStr h)
  /\ (truthy d = false \/ (forall h, home_code h -> ~ contains (toStr d) h) ->
      homeId msg = VUndef).
Proof.
  intros Hn H1 H2 H3. apply normalize_ok in Hn as (_ & _ & Hh & _).
  cbv zeta in Hh |- *. rewrite Hh, H1, H2, H3. clear Hh H1 H2 H3.
  unfold Js.or. cbn [truthy].
  set (d := get raw "deviceId").
  split; [|split; [|split]].
  - intros ->. reflexivity.
  - intros h. destruct (truthy d); cbn [negb]; [|discriminate].
    destruct (match_HOME (toStr d)) as [m|] eqn:E; [|discriminate].
    intros [= <-]. exact (match_HOME_leftmost _ _ E).
  - intros -> (h & Hh & Hc). cbn [negb].
    destruct (match_HOME_some _ _ Hh Hc) as [m ->]. eauto.
  - intros [-> | Hno]; [reflexivity|].
    destruct (truthy d); cbn [negb]; [|reflexivity].
    destruct (match_HOME (toStr d)) as [m|] eqn:E; [|reflexivity].
    exfalso. destruct (match_HOME_leftmost _ _ E) as (Hm & pre & Ho & _).
    apply (Hno m Hm). exists pre. exact Ho.
Qed.

End Normalization.

Lemma C5_stream_priority_witness :
  exists msg,
    normalizeMessage (H := Sample.builtins) Sample.instant "shega/airnode/data"
                     Sample.lower_stream_reading = Ok msg
    /\ stream msg = VStr "STOVE".
Proof.
  eexists. split; [vm_compute; reflexivity|].
  apply (C5_stream_priority (H := Sample.builtins) Sample.instant
           "shega/airnode/data" Sample.lower_stream_reading);
    [vm_compute; reflexivity | vm_compute; reflexivity | right; vm_compute; reflexivity].
Defined.

(** C5 as stated fails: the topic ["shega/myairnode/data"] contains
    ["airnode"], the message has no explicit stream and no measurement,
    and its stream stays [undefined]. *)
Lemma C5_topic_hint_counterexample :
  ~ (forall (now topic : string) (raw : value) (msg : Msg),
        normalizeMessage (H := Sample.builtins) now topic raw = Ok msg ->
        truthy (get raw "stream") = false ->
        includes topic "airnode" = true ->
        stream msg = VStr "AIR").
Proof.
  intros Hall.
  specialize (Hall Sample.instant "shega/myairnode/data" Sample.empty_reading
                   _ eq_refl eq_refl eq_refl).
  discriminate Hall.
Qed.

Lemma C6_alias_mapping_witness :
  pm25 (canonical_payload (source_of Sample.calm_reading)) = Sample.num 12.
Proof.
  pose proof (C6_alias_mapping (H := Sample.builtins) Sample.instant "shega/airnode/data"
                Sample.calm_reading
                (mkMsg Sample.instant (VStr "HOME_02") (VStr "AIR_HOME_02")
                       (VStr "AIR")
                       (canonical_payload (source_of Sample.calm_reading)))
                eq_refl) as (_ & Hflat & _).
  unfold Sample.calm_reading, obj in Hflat.
  apply (Hflat _ _ eq_refl); reflexivity.
Defined.


Lemma C8_home_from_deviceId_witness :
  exists msg,
    normalizeMessage (H := Sample.builtins) Sample.instant "shega/stovenode/status"
                     Sample.stove_legacy = Ok msg
    /\ homeId msg = VStr "HOME_07".
Proof.
  eexists. split; [reflexivity|].
  apply (C8_home_from_deviceId (H := Sample.builtins) Sample.instant
           "shega/stovenode/status" Sample.stove_legacy);
    reflexivity.
Defined.

(** ** The ingestion router *)

Section Ingestion.
Context `{Builtins} {World : Type} `{Collaborators World}.

Lemma received_ok (msg : Msg) (line : LogLine) :
  received_line msg = Ok line ->
  line = Received
  /\ converts (homeId msg) = true /\ converts (deviceId msg) = true.
Proof.
  unfold received_line. intros Hb.
  apply bind_ok in Hb as (h & Hh & Hb). apply bind_ok in Hb as (d & Hd & Hb).
  apply bind_ok in Hb as (s & _ & [= <-]).
  apply ToString_ok in Hh as [Hh _]. apply ToString_ok in Hd as [Hd _]. auto.
Qed.

Lemma received_throw (msg : Msg) (e : Error) :
  received_line msg = Throw e -> e = TypeError.
Proof.
  unfold received_line. intros Hb.
  apply bind_throw in Hb as [Hb | (h & _ & Hb)];
    [apply ToString_throw in Hb; tauto|].
  apply bind_throw in Hb as [Hb | (d & _ & Hb)];
    [apply ToString_throw in Hb; tauto|].
  apply bind_throw in Hb as [Hb | (x & _ & [=])].
  apply ToString_throw in Hb; tauto.
Qed.

Lemma handle_telemetry (st : State World) (topic : string) (raw : value) :
  topic <> "shega/alerts" ->
  telemetry_path st topic raw (handle st topic raw).
Proof.
  intros Htopic. apply String.eqb_neq in Htopic. unfold handle.
  destruct (normalizeMessage (clock (world st)) topic raw) as [msg|e] eqn:Hn;
    cbn [bind]; [|apply path_throws; exact Hn].
  destruct (received_line msg) as [line|e] eqn:Hl; cbn [bind];
    [|eapply path_line_throws; eassumption].
  destruct (received_ok _ _ Hl) as (-> & _ & _).
  rewrite Htopic.
  destruct (truthy (homeId msg) && truthy (deviceId msg)) eqn:Hids.
  2:{ apply andb_false_iff in Hids as Hor.
      replace (negb (truthy (homeId msg)) || negb (truthy (deviceId msg)))
        with true
        by (destruct Hor as [-> | ->]; simpl; rewrite ?orb_true_r; reflexivity).
      eapply path_missing_ids; eassumption. }
  apply andb_true_iff in Hids as Hboth. destruct Hboth as [Hh Hd].
  rewrite Hh, Hd. cbn [negb orb].
  destruct (truthy (stream msg)) eqn:Hs; cbn [negb];
    [|eapply path_no_stream; eassumption].
  destruct (upsertFromIngest (world st) _) as [w1 [device|e]] eqn:Hu;
    [|eapply path_registry_fails; eassumption].
  destruct (saveTelemetry w1 _) as [w2 [doc|e]] eqn:Hsv.
  - eapply path_saved; eassumption.
  - eapply path_store_fails; eassumption.
Qed.

Lemma handle_alerts_topic (st : State World) (raw : value) :
  handle st "shega/alerts" raw =
  match normalizeMessage (clock (world st)) "shega/alerts" raw with
  | Throw e => (Throw e, world st, [])
  | Ok msg =>
      match received_line msg with
      | Throw e => (Throw e, world st, [])
      | Ok _ => (Ok tt, world st, Log Received :: push (io st) alert raw)
      end
  end.
Proof.
  unfold handle.
  destruct (normalizeMessage (clock (world st)) "shega/alerts" raw) as [msg|e];
    cbn [bind]; [|reflexivity].
  destruct (received_line msg) as [line|e] eqn:Hl; cbn [bind]; [|reflexivity].
  destruct (received_ok _ _ Hl) as (-> & _ & _). reflexivity.
Qed.

(** *** What the pieces of a trace are made of *)

Lemma push_events (b : bool) (c : Channel) (o : value) (e : Event) :
  In e (push b c o) -> e = Push c o \/ exists em, e = SocketEmit em.
Proof.
  unfold push. intros [<- | Hin]; [left; reflexivity|]. right.
  destruct c; simpl in Hin;
    match type of Hin with
    | In _ (match ?r with _ => _ end) => destruct r as [ems|]
    end;
    try contradiction;
    apply in_map_iff in Hin as (em & <- & _); eauto.
Qed.

Lemma emit_to_home_shape (b : bool) (ev : string) (o : value) :
  Sockets.emit_to_home b ev o = Ok []
  \/ (exists e, Sockets.emit_to_home b ev o = Throw e)
  \/ (b = true
      /\ Sockets.emit_to_home b ev o
         = Ok [Sockets.mkEmit ("home:" ++ toStr (get o "homeId")) ev o;
               Sockets.mkEmit "admin" ev o]).
Proof.
  unfold Sockets.emit_to_home. destruct b; cbn [negb]; [|auto].
  destruct (nullish o); [right; left; eauto|].
  unfold ToString. destruct (converts (get o "homeId")); cbn [bind];
    [right; right; auto | right; left; eauto].
Qed.

Lemma push_telemetry_quiet (b : bool) (doc : value) :
  alert_events (push b telemetry doc) = [].
Proof.
  unfold push, Sockets.emitTelemetry.
  destruct (emit_to_home_shape b "telemetry" doc) as [-> | [[e ->] | [_ ->]]];
    reflexivity.
Qed.



Lemma publish_events (st : State World) (w : World) (msg : Msg) (e : Event) :
  In e (maybePublishAlerts st w msg) ->
  match e with
  | RegistryUpsert _ _ | StoreAppend _ _ => False
  | BusPublish t v =>
      client st = true /\ evaluate (payload msg) <> [] /\ t = "shega/alerts"
      /\ v = alert_value (mkAlert (homeId msg) (deviceId msg) (stream msg)
                                  (clock w) (evaluate (payload msg)))
  | _ => True
  end.
Proof.
  unfold maybePublishAlerts. destruct (client st); [|contradiction].
  cbn [negb]. destruct (evaluate (payload msg)) as [|i items] eqn:E;
    [contradiction|].
  cbv zeta. intros [<- | [<- | Hin]].
  - repeat split. discriminate.
  - exact I.
  - apply push_events in Hin as [-> | [em ->]]; exact I.
Qed.

Lemma quiet_trace (es pre post : list Event) (e : Event) :
  alert_events es = [] -> es = (pre ++ e :: post)%list ->
  is_alert_event e = false.
Proof.
  intros Hq ->. unfold alert_events in Hq.
  rewrite List.filter_app in Hq. simpl in Hq.
  destruct (is_alert_event e); [|reflexivity].
  apply app_eq_nil in Hq as [_ Hq]. discriminate.
Qed.

Lemma telemetry_message (st : State World) (topic buf : string)
      (out : Res unit * World * list Event) :
  topic <> "shega/alerts" ->
  on_message st topic buf = out ->
  (JSON_parse buf = None /\ out = (Ok tt, world st, [Log NonJson]))
  \/ exists raw, JSON_parse buf = Some raw /\ telemetry_path st topic raw out.
Proof.
  intros Htopic <-. unfold on_message.
  destruct (JSON_parse buf) as [raw|]; [right | left; auto].
  exists raw. split; [reflexivity | apply handle_telemetry, Htopic].
Qed.

(** In the trace of a stored reading, the alert events are those of
    [maybePublishAlerts], and the only store call is the first one. *)
Lemma saved_trace (st : State World) (w : World) (msg : Msg)
      (ua : UpsertArgs) (sa : SaveArgs) (doc : value) (es : list Event) :
  es = ([Log Received; RegistryUpsert ua true; StoreAppend sa true; Log Saved]
        ++ (if nullish doc then [] else push (io st) telemetry doc)
        ++ maybePublishAlerts st w msg)%list ->
  alert_events es = alert_events (maybePublishAlerts st w msg)
  /\ (forall a b, In (StoreAppend a b) es -> a = sa /\ b = true)
  /\ (forall a b, In (RegistryUpsert a b) es -> a = ua /\ b = true)
  /\ (forall t v, In (BusPublish t v) es ->
                  In (BusPublish t v) (maybePublishAlerts st w msg)).
Proof.
  intros ->. split; [|split; [|split]].
  - unfold alert_events. rewrite !List.filter_app. simpl List.filter at 1.
    destruct (nullish doc); [reflexivity|].
    fold (alert_events (push (io st) telemetry doc)).
    rewrite push_telemetry_quiet. reflexivity.
  - intros a b Hin. apply in_app_or in Hin as [Hin | Hin].
    + simpl in Hin. intuition congruence.
    + exfalso. apply in_app_or in Hin as [Hin | Hin].
      * destruct (nullish doc); [contradiction|].
        apply push_events in Hin as [? | [? ?]]; discriminate.
      * exact (publish_events _ _ _ _ Hin).
  - intros a b Hin. apply in_app_or in Hin as [Hin | Hin].
    + simpl in Hin. intuition congruence.
    + exfalso. apply in_app_or in Hin as [Hin | Hin].
      * destruct (nullish doc); [contradiction|].
        apply push_events in Hin as [? | [? ?]]; discriminate.
      * exact (publish_events _ _ _ _ Hin).
  - intros t v Hin. apply in_app_or in Hin as [Hin | Hin].
    + simpl in Hin. intuition discriminate.
    + apply in_app_or in Hin as [Hin | Hin]; [|exact Hin].
      destruct (nullish doc); [contradiction|].
      apply push_events in Hin as [? | [? ?]]; discriminate.
Qed.

(** C4.  On a telemetry topic, every alert event of a message (the
    publication on the alerts channel, the push to the fan-out, what
    the sockets emit) comes after the accepted registry upsert and the
    accepted store append of that message; a message whose upsert or
    whose append is refused has no alert event. *)
Theorem C4_alert_after_persistence (st : State World) (topic buf : string)
        (r : Res unit) (w : World) (es : list Event) :
  topic <> "shega/alerts" ->
  on_message st topic buf = (r, w, es) ->
  (forall pre e post,
      es = (pre ++ e :: post)%list -> is_alert_event e = true ->
      exists ua sa, In (RegistryUpsert ua true) pre
                    /\ In (StoreAppend sa true) pre)
  /\ (forall ua, In (RegistryUpsert ua false) es -> alert_events es = [])
  /\ (forall sa, In (StoreAppend sa false) es -> alert_events es = [])
  /\ ((forall sa, ~ In (StoreAppend sa true) es) -> alert_events es = []).
Proof.
  intros Htopic Hrun.
  assert (Hquiet : alert_events es = [] ->
            (forall pre e post,
                es = (pre ++ e :: post)%list -> is_alert_event e = true ->
                exists ua sa, In (RegistryUpsert ua true) pre
                              /\ In (StoreAppend sa true) pre)
            /\ (forall ua, In (RegistryUpsert ua false) es -> alert_events es = [])
            /\ (forall sa, In (StoreAppend sa false) es -> alert_events es = [])
            /\ ((forall sa, ~ In (StoreAppend sa true) es) -> alert_events es = [])).
  { intros Hq. repeat split; auto.
    intros pre e post Hes He.
    rewrite (quiet_trace _ _ _ _ Hq Hes) in He. discriminate. }
  destruct (telemetry_message _ _ _ _ Htopic Hrun) as [[_ [= _ _ ->]] | (raw & _ & Hpath)];
    [apply Hquiet; reflexivity|].
  inversion Hpath; subst; try (apply Hquiet; reflexivity).
  clear Hquiet.
  destruct (saved_trace st w msg ua sa doc _ eq_refl) as (Ha & Hs & Hu & _).
  split; [|split; [|split]].
  - intros pre e post Hes He. exists ua, sa.
    destruct pre as [|p0 [|p1 [|p2 pre]]]; simpl in Hes;
      injection Hes as; subst; try discriminate He.
    simpl. auto.
  - intros a Hin. destruct (Hu _ _ Hin) as [_ [=]].
  - intros a Hin. destruct (Hs _ _ Hin) as [_ [=]].
  - intros Hno. exfalso. apply (Hno sa). simpl. auto.
Qed.



Lemma set_world_same (st : State World) : set_world st (world st) = st.
Proof. destruct st; reflexivity. Qed.

(** C9.  A message whose bytes do not parse is dropped with one
    console line: the handler returns normally, calls neither the
    registry nor the store nor the sockets module, leaves the world as
    it is, and the messages delivered after it are processed as if it
    had not come. *)
Theorem C9_malformed_dropped (st : State World) (topic buf : string) :
  JSON_parse buf = None ->
  on_message st topic buf = (Ok tt, world st, [Log NonJson])
  /\ List.filter is_call (snd (on_message st topic buf)) = []
  /\ forall rest,
      deliver st ((topic, buf) :: rest)
      = (fst (deliver st rest), Log NonJson :: snd (deliver st rest)).
Proof.
  intros Hbad.
  assert (Hrun : on_message st topic buf = (Ok tt, world st, [Log NonJson]))
    by (unfold on_message; rewrite Hbad; reflexivity).
  split; [exact Hrun|]. split; [rewrite Hrun; reflexivity|].
  intros rest. cbn [deliver]. rewrite Hrun, set_world_same.
  destruct (deliver st rest). reflexivity.
Qed.

(** Every store call of the handler carries a truthy home, device and
    stream. *)
Lemma stored_reading_resolved (st : State World) (topic buf : string)
      (r : Res unit) (w : World) (es : list Event) (sa : SaveArgs) (b : bool) :
  topic <> "shega/alerts" ->
  on_message st topic buf = (r, w, es) ->
  In (StoreAppend sa b) es ->
  truthy (s_homeId sa) = true /\ truthy (s_deviceId sa) = true
  /\ truthy (s_stream sa) = true.
Proof.
  intros Htopic Hrun Hin.
  destruct (telemetry_message _ _ _ _ Htopic Hrun)
    as [[_ [= _ _ ->]] | (raw & _ & Hpath)].
  { simpl in Hin. intuition discriminate. }
  inversion Hpath; subst; try (simpl in Hin; intuition discriminate).
  - destruct Hin as [|[|[Hin|[|[]]]]]; try discriminate.
    injection Hin as <- _.
    match goal with
    | Hb : _ && _ = true |- _ => apply andb_true_iff in Hb as []
    end.
    auto.
  - destruct (saved_trace st w msg ua sa0 doc _ eq_refl) as (_ & Hs & _).
    cbn [app] in Hs.
    destruct (Hs _ _ Hin) as [-> _].
    match goal with
    | Hb : _ && _ = true |- _ => apply andb_true_iff in Hb as []
    end.
    auto.
Qed.

(** *** Fan-out not initialised *)

Lemma without_emits_app (l1 l2 : list Event) :
  without_emits (l1 ++ l2) = (without_emits l1 ++ without_emits l2)%list.
Proof. apply List.filter_app. Qed.

Lemma without_emits_push (c : Channel) (o : value) :
  without_emits (push true c o) = push false c o.
Proof.
  unfold push, Sockets.emitTelemetry, Sockets.emitAlert, Sockets.emitCommand.
  destruct c;
    match goal with
    | |- context [Sockets.emit_to_home true ?ev o] =>
        destruct (emit_to_home_shape true ev o) as [-> | [[e ->] | [_ ->]]]
    end; reflexivity.
Qed.

Lemma without_emits_publish (st : State World) (w : World) (msg : Msg) :
  without_emits (maybePublishAlerts (set_io st true) w msg)
  = maybePublishAlerts (set_io st false) w msg.
Proof.
  unfold maybePublishAlerts. cbn [set_io client io].
  destruct (client st); [|reflexivity]. cbn [negb].
  destruct (evaluate (payload msg)); [reflexivity|]. cbv zeta.
  rewrite without_emits_app, without_emits_push. reflexivity.
Qed.

Lemma handle_without_io (st : State World) (topic : string) (raw : value)
      (r : Res unit) (w : World) (es : list Event) :
  handle (set_io st true) topic raw = (r, w, es) ->
  handle (set_io st false) topic raw = (r, w, without_emits es).
Proof.
  unfold handle. cbn [set_io world io].
  destruct (normalizeMessage (clock (world st)) topic raw) as [msg|e];
    cbn [bind]; [|intros [= <- <- <-]; reflexivity].
  destruct (received_line msg) as [line|e];
    cbn [bind]; [|intros [= <- <- <-]; reflexivity].
  destruct (String.eqb topic "shega/alerts").
  { intros [= <- <- <-]. f_equal. symmetry.
    change (Log line :: push true alert raw)
      with ([Log line] ++ push true alert raw)%list.
    rewrite without_emits_app, without_emits_push. reflexivity. }
  destruct (negb (truthy (homeId msg)) || negb (truthy (deviceId msg)));
    [intros [= <- <- <-]; reflexivity|].
  destruct (negb (truthy (stream msg)));
    [intros [= <- <- <-]; reflexivity|].
  destruct (upsertFromIngest (world st) _) as [w1 [device|e]];
    [|intros [= <- <- <-]; reflexivity].
  destruct (saveTelemetry w1 _) as [w2 [doc|e]];
    [|intros [= <- <- <-]; reflexivity].
  intros [= <- <- <-]. f_equal.
  symmetry.
  match goal with
  | |- without_emits (?a :: ?b :: ?c :: ?d :: ?t) = _ =>
      change (a :: b :: c :: d :: t) with ([a; b; c; d] ++ t)%list
  end.
  rewrite !without_emits_app, without_emits_publish.
  destruct (nullish doc); [reflexivity|].
  rewrite without_emits_push. reflexivity.
Qed.

(** C10.  While the socket server is not initialised, [emitTelemetry],
    [emitAlert] and [emitCommand] return normally and emit nothing,
    whatever their argument, and [getIO] throws.  The handler then
    does what it does with a server, less the emissions: same result,
    same world, same registry and store calls, same publications. *)
Theorem C10_fanout_uninitialised (st : State World) (topic buf : string)
        (r : Res unit) (w : World) (es : list Event) :
  on_message (set_io st true) topic buf = (r, w, es) ->
  (forall v, Sockets.emitTelemetry false v = Ok [])
  /\ (forall v, Sockets.emitAlert false v = Ok [])
  /\ (forall v, Sockets.emitCommand false v = Ok [])
  /\ Sockets.getIO false = Throw (mkError "Socket.IO not initialized" None)
  /\ on_message (set_io st false) topic buf = (r, w, without_emits es).
Proof.
  intros Hrun. repeat split.
  revert Hrun. unfold on_message.
  destruct (JSON_parse buf) as [raw|].
  - apply handle_without_io.
  - intros [= <- <- <-]. reflexivity.
Qed.

End Ingestion.

(** ** The command dispatcher *)

Section Dispatch.
Context `{Builtins} {World : Type} `{Collaborators World}.

Lemma control_payload_fields (device command : value) (now : string) :
  let payload := control_payload device command now in
  get payload "deviceId" = get device "deviceId"
  /\ get payload "homeId" = get device "homeId"
  /\ get payload "command" = command
  /\ get payload "ts" = VStr now.
Proof. repeat split. Qed.

(** C3 (as amended).  When the registry finds no device the call
    fails with status 404 and publishes nothing.  When it finds one
    and the MQTT publisher cannot be loaded, the call fails with
    status 500 and publishes nothing.  When it finds one, the
    publisher is loaded and started and the device has a type, exactly
    one message is published, on the topic
    [shega/<lower-cased type>/control], and its payload holds the
    [deviceId] and the [homeId] of the device, the command as given,
    and the time of issue. *)
Theorem C3_dispatch (st : State World) (deviceId command : value)
        (w : World) (device : value) :
  Device_findOne (world st) deviceId = (w, Ok device) ->
  (truthy device = false ->
   exists st',
     sendDeviceControl st deviceId command
     = (Throw (mkError "Device not found" (Some 404%nat)), st', []))
  /\ (truthy device = true ->
      mqttPublisher st || mqtt_resolves st = false ->
      exists st',
        sendDeviceControl st deviceId command
        = (Throw (mkError "MQTT publisher not available" (Some 500%nat)),
           st', []))
  /\ (truthy device = true ->
      mqttPublisher st || mqtt_resolves st = true ->
      client st = true ->
      forall ty, get device "type" = VStr ty ->
      let topic := "shega/" ++ toLowerCase ty ++ "/control" in
      exists st' payload,
        sendDeviceControl st deviceId command
        = (Ok (mkSent true topic payload), st', [BusPublish topic payload])
        /\ get payload "deviceId" = get device "deviceId"
        /\ get payload "homeId" = get device "homeId"
        /\ get payload "command" = command
        /\ get payload "ts" = VStr (clock w)).
Proof.
  intros Hfind. unfold sendDeviceControl. rewrite Hfind.
  split; [|split].
  - intros ->. eexists. reflexivity.
  - intros -> Hno. apply orb_false_iff in Hno as [Hp Hr].
    unfold getMqtt. cbn [negb set_world mqttPublisher mqtt_resolves].
    rewrite Hp, Hr. eexists. reflexivity.
  - intros -> Hyes Hclient ty Hty. cbv zeta.
    unfold getMqtt. cbn [negb set_world mqttPublisher mqtt_resolves].
    destruct (mqttPublisher st) eqn:Hp.
    + cbn [negb]. rewrite Hty. unfold publish.
      cbn [client set_world]. rewrite Hclient. cbn [negb].
      do 2 eexists. split; [reflexivity|].
      apply control_payload_fields.
    + simpl in Hyes. rewrite Hyes. cbn [negb]. rewrite Hty. unfold publish.
      cbn [client set_world]. rewrite Hclient. cbn [negb].
      do 2 eexists. split; [reflexivity|].
      apply control_payload_fields.
Qed.

End Dispatch.

(** ** The properties on concrete messages *)

Lemma C3_dispatch_witness :
  exists st' payload,
    sendDeviceControl Sample.running (VStr "STOVE_HOME_02")
                      (obj [("fanOn", VBool true)])
    = (Ok (mkSent true "shega/stovenode/control" payload), st',
       [BusPublish "shega/stovenode/control" payload])
    /\ get payload "deviceId" = get Sample.stove_02 "deviceId"
    /\ get payload "homeId" = get Sample.stove_02 "homeId"
    /\ get payload "command" = obj [("fanOn", VBool true)]
    /\ get payload "ts" = VStr Sample.instant.
Proof.
  assert (Hfind : Device_findOne (world Sample.running) (VStr "STOVE_HOME_02")
                  = (Sample.healthy, Ok Sample.stove_02))
    by (vm_compute; reflexivity).
  destruct (C3_dispatch Sample.running (VStr "STOVE_HOME_02")
              (obj [("fanOn", VBool true)]) _ _ Hfind) as (_ & _ & Hsend).
  apply (Hsend eq_refl eq_refl eq_refl "STOVENODE").
  vm_compute. reflexivity.
Defined.

(** C3 as stated fails: the registry knows the device, the publisher
    module does not load, and no message is published. *)
Lemma C3_publisher_missing_counterexample :
  ~ (forall (st : State Sample.World) (deviceId command : value)
            (w : Sample.World) (device : value),
        Device_findOne (world st) deviceId = (w, Ok device) ->
        truthy device = true ->
        exists topic payload,
          snd (sendDeviceControl st deviceId command)
          = [BusPublish topic payload]).
Proof.
  intros Hall.
  assert (Hfind : Device_findOne (world Sample.no_publisher)
                    (VStr "STOVE_HOME_02")
                  = (Sample.healthy, Ok Sample.stove_02))
    by (vm_compute; reflexivity).
  destruct (Hall Sample.no_publisher (VStr "STOVE_HOME_02")
                 (obj [("fanOn", VBool true)]) _ _ Hfind eq_refl)
    as (topic & payload & Hsent).
  vm_compute in Hsent. discriminate Hsent.
Qed.

(** C2 fails on the code: a message with the explicit stream ["foo"]
    passes the guards and is stored with the stream ["FOO"]. *)
Lemma C2_unvalidated_stream_stored :
  exists sa,
    In (StoreAppend sa true)
       (snd (on_message Sample.running "shega/x/data" "odd"))
    /\ s_stream sa = VStr "FOO"
    /\ s_stream sa <> VStr "AIR" /\ s_stream sa <> VStr "STOVE".
Proof.
  eexists. split; [|split; [|split]].
  - vm_compute. right. right. left. reflexivity.
  - reflexivity.
  - discriminate.
  - discriminate.
Qed.

Lemma C4_alert_after_persistence_witness :
  alert_events (snd (on_message Sample.store_down "shega/airnode/data" "air"))
  = [].
Proof.
  destruct (on_message Sample.store_down "shega/airnode/data" "air")
    as [[r w] es] eqn:Hrun.
  destruct (C4_alert_after_persistence Sample.store_down "shega/airnode/data"
              "air" r w es ltac:(discriminate) Hrun) as (_ & _ & Hfail & _).
  vm_compute in Hrun. injection Hrun as <- <- <-.
  eapply Hfail. right. right. left. reflexivity.
Defined.


Lemma C9_malformed_dropped_witness :
  on_message Sample.running "shega/airnode/data" "{co2:"
  = (Ok tt, Sample.healthy, [Log NonJson]).
Proof.
  apply (C9_malformed_dropped Sample.running "shega/airnode/data" "{co2:").
  reflexivity.
Defined.

Lemma C10_fanout_uninitialised_witness :
  on_message (set_io Sample.running false) "shega/airnode/data" "air"
  = (fst (on_message (set_io Sample.running true) "shega/airnode/data" "air"),
     without_emits
       (snd (on_message (set_io Sample.running true) "shega/airnode/data" "air"))).
Proof.
  destruct (on_message (set_io Sample.running true) "shega/airnode/data" "air")
    as [[r w] es] eqn:Hrun.
  apply (C10_fanout_uninitialised Sample.running "shega/airnode/data" "air").
  exact Hrun.
Defined.

(** * Further properties *)

(** ** Alert items *)

Section AlertItems.

Lemma finite_number (v : value) :
  isFiniteNumber v = true -> exists q, v = VNum (Fin q).
Proof.
  destruct v as [| |b|[q| | |]|s|l|m]; try discriminate. eauto.
Qed.

(** X1.  The items of an evaluation come in the fixed order CO2, CO,
    PM2_5, STOVE_TEMP whatever the order of the fields in the message,
    with no type twice; there are at most four. *)
Theorem X1_alert_order (p : Payload) :
  sublist (map type (evaluate p)) [CO2; CO; PM2_5; STOVE_TEMP]
  /\ NoDup (map type (evaluate p))
  /\ (length (evaluate p) <= 4)%nat.
Proof.
  assert (Hsub : sublist (map type (evaluate p)) [CO2; CO; PM2_5; STOVE_TEMP]).
  { unfold evaluate.
    destruct (isFiniteNumber (co2 p) && gt (co2 p) 1000),
             (isFiniteNumber (co p) && gt (co p) 35),
             (isFiniteNumber (pm25 p) && gt (pm25 p) 35),
             (isFiniteNumber (stove_temp_c p) && gt (stove_temp_c p) 250);
      cbn [app map type];
      repeat first [apply sublist_nil | apply sublist_skip | apply sublist_cons]. }
  split; [exact Hsub|]. split.
  - eapply sublist_NoDup; [|exact Hsub].
    apply (bool_decide_unpack _). reflexivity.
  - apply sublist_length in Hsub. rewrite length_map in Hsub. exact Hsub.
Qed.

Lemma tiered_item (p : Payload) (t : AlertType) (v : value) :
  metric_of t p = v ->
  Forall (fun i =>
            value_of i = metric_of (type i) p
            /\ limit i = lowest_limit (type i)
            /\ exists q, value_of i = VNum (Fin q)
                         /\ (limit i < q)%Q
                         /\ (level i = danger <-> (danger_limit (type i) < q)%Q))
         (if isFiniteNumber v && gt v (lowest_limit t)
          then [mkItem t (if gt v (danger_limit t) then danger else warn) v
                       (lowest_limit t)]
          else []).
Proof.
  intros Hv.
  destruct (isFiniteNumber v && gt v (lowest_limit t)) eqn:E; [|constructor].
  apply andb_true_iff in E as [Hfin Hgt].
  destruct (finite_number _ Hfin) as [q Hq].
  constructor; [|constructor]. cbn [value_of limit type level].
  split; [symmetry; exact Hv|]. split; [reflexivity|].
  exists q. split; [exact Hq|]. rewrite Hq in Hgt |- *.
  split; [apply gt_iff, Hgt|].
  destruct (gt (VNum (Fin q)) (danger_limit t)) eqn:Ed; split; intros Hx.
  - apply gt_iff, Ed.
  - reflexivity.
  - discriminate Hx.
  - apply gt_iff in Hx. congruence.
Qed.

Lemma single_item (p : Payload) (t : AlertType) (v : value) :
  metric_of t p = v ->
  danger_limit t = lowest_limit t ->
  Forall (fun i =>
            value_of i = metric_of (type i) p
            /\ limit i = lowest_limit (type i)
            /\ exists q, value_of i = VNum (Fin q)
                         /\ (limit i < q)%Q
                         /\ (level i = danger <-> (danger_limit (type i) < q)%Q))
         (if isFiniteNumber v && gt v (lowest_limit t)
          then [mkItem t danger v (lowest_limit t)]
          else []).
Proof.
  intros Hv Hd.
  destruct (isFiniteNumber v && gt v (lowest_limit t)) eqn:E; [|constructor].
  apply andb_true_iff in E as [Hfin Hgt].
  destruct (finite_number _ Hfin) as [q Hq].
  constructor; [|constructor]. cbn [value_of limit type level].
  split; [symmetry; exact Hv|]. split; [reflexivity|].
  exists q. split; [exact Hq|]. rewrite Hq in Hgt. apply gt_iff in Hgt.
  split; [exact Hgt|]. rewrite Hd. split; auto.
Qed.

(** X2.  Every item of an evaluation reports the value of its own
    metric, a finite number strictly above the limit the item names;
    that limit is 1000 for CO2, 35 for CO and PM2.5, 250 for the stove
    temperature; and the level is danger exactly when the value is
    above the danger threshold of the metric. *)
Theorem X2_alert_items_sound (p : Payload) :
  Forall (fun i =>
            value_of i = metric_of (type i) p
            /\ limit i = lowest_limit (type i)
            /\ exists q, value_of i = VNum (Fin q)
                         /\ (limit i < q)%Q
                         /\ (level i = danger <-> (danger_limit (type i) < q)%Q))
         (evaluate p).
Proof.
  unfold evaluate. repeat apply Forall_app_2.
  - exact (tiered_item p CO2 (co2 p) eq_refl).
  - exact (single_item p CO (co p) eq_refl eq_refl).
  - exact (tiered_item p PM2_5 (pm25 p) eq_refl).
  - exact (single_item p STOVE_TEMP (stove_temp_c p) eq_refl eq_refl).
Qed.

End AlertItems.

(** ** The shape of a normalised message *)

Section Shape.
Context `{Builtins}.

Lemma pickNumber_shape (candidates : list value) :
  absent_or_finite (pickNumber candidates).
Proof.
  induction candidates as [|v rest IH]; simpl; [left; reflexivity|].
  destruct (isFiniteNumber v) eqn:E; [|exact IH].
  right. exact (finite_number _ E).
Qed.

Lemma strict_bool_shape (v : value) : absent_or_boolean (strict_bool v).
Proof. destruct v; simpl; [left; reflexivity.. | right; eauto | | | | ]; left; reflexivity. Qed.

(** X3.  In a normalised message every numeric measurement is either
    [undefined] or a finite number (never a string, [null], [NaN] or an
    infinity), and [fanOn], [buzzerOn], [windowOpen] are either
    [undefined] or a boolean. *)
Theorem X3_payload_shape (now topic : string) (raw : value) (msg : Msg) :
  normalizeMessage now topic raw = Ok msg ->
  let p := payload msg in
  absent_or_finite (co2 p) /\ absent_or_finite (co p)
  /\ absent_or_finite (pm25 p) /\ absent_or_finite (pm10 p)
  /\ absent_or_finite (temperature_c p) /\ absent_or_finite (humidity_pct p)
  /\ absent_or_finite (stove_temp_c p)
  /\ absent_or_boolean (fanOn p) /\ absent_or_boolean (buzzerOn p)
  /\ absent_or_boolean (windowOpen p).
Proof.
  intros Hn. apply normalize_ok in Hn as (_ & Hp & _). cbv zeta. rewrite Hp.
  unfold canonical_payload. cbn [co2 co pm25 pm10 temperature_c humidity_pct
                                 stove_temp_c fanOn buzzerOn windowOpen].
  repeat split; first [apply pickNumber_shape | apply strict_bool_shape].
Qed.

(** The stream of a normalised message is a text or [undefined],
    which convert. *)
Lemma stream_converts (now topic : string) (raw : value) (msg : Msg) :
  normalizeMessage now topic raw = Ok msg -> converts (stream msg) = true.
Proof.
  intros Hn. apply normalize_ok in Hn as (_ & _ & _ & _ & Hs & _).
  cbv zeta in Hs. rewrite Hs. clear Hs.
  generalize (canonical_payload (source_of raw)) as p. intros p.
  unfold Js.or, Js.and, by_presence.
  set (e := get raw "stream").
  set (shown := toUpperCase (toStr e)).
  destruct (truthy e) eqn:Et;
    destruct (String.eqb shown EmptyString) eqn:Ee;
    destruct (includes (toLowerCase topic) "/airnode/");
    destruct (includes (toLowerCase topic) "/stovenode/");
    destruct (isFiniteNumber (stove_temp_c p));
    destruct (isFiniteNumber (co2 p) || isFiniteNumber (co p)
              || isFiniteNumber (pm25 p) || isFiniteNumber (pm10 p));
    cbn [truthy negb andb]; rewrite ?Et, ?Ee;
    cbn [truthy negb andb]; rewrite ?Et, ?Ee;
    cbn [truthy negb andb String.eqb Ascii.eqb Bool.eqb];
    reflexivity.
Qed.

(** X4.  The stream of a normalised message is [undefined], AIR,
    STOVE, or the upper-cased text of a truthy explicit [stream]
    field, which is then not empty: the guard [!msg.stream] of the
    handler refuses exactly the messages whose stream is
    [undefined]. *)
Theorem X4_stream_shape (now topic : string) (raw : value) (msg : Msg) :
  normalizeMessage now topic raw = Ok msg ->
  (stream msg = VUndef \/ stream msg = VStr "AIR" \/ stream msg = VStr "STOVE"
   \/ (truthy (get raw "stream") = true
       /\ toUpperCase (toStr (get raw "stream")) <> EmptyString
       /\ stream msg = VStr (toUpperCase (toStr (get raw "stream")))))
  /\ (truthy (stream msg) = false <-> stream msg = VUndef).
Proof.
  intros Hn. apply normalize_ok in Hn as (_ & _ & _ & _ & Hs & _).
  cbv zeta in Hs.
  assert (Hshape :
            stream msg = VUndef \/ stream msg = VStr "AIR"
            \/ stream msg = VStr "STOVE"
            \/ (truthy (get raw "stream") = true
                /\ toUpperCase (toStr (get raw "stream")) <> EmptyString
                /\ stream msg = VStr (toUpperCase (toStr (get raw "stream"))))).
  { rewrite Hs. clear Hs.
    generalize (canonical_payload (source_of raw)) as p. intros p.
    unfold Js.or, Js.and, by_presence.
    set (e := get raw "stream").
    set (shown := toUpperCase (toStr e)).
    destruct (truthy e) eqn:Et;
      destruct (String.eqb shown EmptyString) eqn:Ee;
      destruct (includes (toLowerCase topic) "/airnode/");
      destruct (includes (toLowerCase topic) "/stovenode/");
      destruct (isFiniteNumber (stove_temp_c p));
      destruct (isFiniteNumber (co2 p) || isFiniteNumber (co p)
                || isFiniteNumber (pm25 p) || isFiniteNumber (pm10 p));
      cbn [truthy negb andb]; rewrite ?Et, ?Ee;
      cbn [truthy negb andb]; rewrite ?Et, ?Ee;
      cbn [truthy negb andb String.eqb Ascii.eqb Bool.eqb];
      first [ left; reflexivity
            | right; left; reflexivity
            | right; right; left; reflexivity
            | right; right; right;
              split; [reflexivity|];
              split; [apply String.eqb_neq, Ee | reflexivity] ]. }
  split; [exact Hshape|]. split.
  - destruct Hshape as [-> | [-> | [-> | (_ & Hne & ->)]]];
      [reflexivity | discriminate | discriminate |].
    cbn [truthy]. intros Hf. apply negb_false_iff, String.eqb_eq in Hf.
    contradiction.
  - intros ->. reflexivity.
Qed.

Lemma match_HOME_here (s m : string) :
  match_here s = Some m -> match_HOME s = Some m.
Proof.
  intros E. destruct s as [|a s]; [cbv in E; discriminate E|].
  cbn [match_HOME]. rewrite E. reflexivity.
Qed.

Lemma match_HOME_skip (a : ascii) (s : string) :
  match_here (String a s) = None -> match_HOME (String a s) = match_HOME s.
Proof. intros E. cbn [match_HOME]. rewrite E. reflexivity. Qed.

Lemma match_here_code (h : string) : home_code h -> match_here h = Some h.
Proof.
  intros Hc. apply match_here_spec. split; [exact Hc|].
  exists EmptyString. destruct Hc as (d1 & d2 & _ & _ & ->). reflexivity.
Qed.

Lemma match_HOME_coded (h : string) :
  home_code h ->
  match_HOME h = Some h
  /\ match_HOME ("AIR_" ++ h) = Some h
  /\ match_HOME ("STOVE_" ++ h) = Some h.
Proof.
  intros Hc. pose proof (match_HOME_here _ _ (match_here_code _ Hc)) as Hm.
  split; [exact Hm|]. split.
  - change ("AIR_" ++ h)
      with (String "A" (String "I" (String "R" (String "_" h)))).
    rewrite !match_HOME_skip by reflexivity. exact Hm.
  - change ("STOVE_" ++ h)
      with (String "S" (String "T" (String "O" (String "V" (String "E"
              (String "_" h)))))).
    rewrite !match_HOME_skip by reflexivity. exact Hm.
Qed.

Lemma extract_text (s : string) :
  s <> EmptyString ->
  extractHomeFromDevice (VStr s)
  = Ok match match_HOME s with
       | Some m => VStr m
       | None => VUndef
       end.
Proof.
  intros Hne. unfold extractHomeFromDevice. cbn [truthy].
  apply String.eqb_neq in Hne. rewrite Hne. reflexivity.
Qed.

(** X5.  The home written in a device identifier after [AIR_] or
    [STOVE_] is the home that is extracted: for every code [HOME_dd],
    the identifiers [AIR_HOME_dd] and [STOVE_HOME_dd], and the code
    itself, give [HOME_dd]. *)
Theorem X5_home_round_trip (h : string) :
  home_code h ->
  extractHomeFromDevice (VStr h) = Ok (VStr h)
  /\ extractHomeFromDevice (VStr ("AIR_" ++ h)) = Ok (VStr h)
  /\ extractHomeFromDevice (VStr ("STOVE_" ++ h)) = Ok (VStr h).
Proof.
  intros Hc. destruct (match_HOME_coded h Hc) as (Hh & Ha & Hs).
  split; [|split].
  - rewrite extract_text, Hh; [reflexivity|].
    destruct Hc as (d1 & d2 & _ & _ & ->). discriminate.
  - rewrite extract_text, Ha; [reflexivity | discriminate].
  - rewrite extract_text, Hs; [reflexivity | discriminate].
Qed.

(** X6.  The home is inferred from [deviceId] only: a message whose
    device is given under the alias [device] and that names no home
    has no home, whatever the alias holds. *)
Theorem X6_no_home_from_device_alias (now topic : string) (raw : value)
        (msg : Msg) :
  normalizeMessage now topic raw = Ok msg ->
  truthy (get raw "homeId") = false -> truthy (get raw "home") = false ->
  truthy (get raw "h") = false -> truthy (get raw "deviceId") = false ->
  homeId msg = VUndef /\ deviceId msg = get raw "device".
Proof.
  intros Hn H1 H2 H3 H4. apply normalize_ok in Hn as (_ & _ & Hh & Hd & _).
  cbv zeta in Hh. rewrite Hh, Hd. unfold Js.or.
  rewrite H1, H2, H3, H4. split; reflexivity.
Qed.

End Shape.

(** ** Identifiers of the simulator *)

Section SimulatorIds.
Context `{Builtins}.

Lemma coded_below_99 : forallb coded (seq 0 99) = true.
Proof. vm_compute. reflexivity. Qed.

(** X7.  For the first 99 homes of the simulator, the home extracted
    from the identifier of the air node and of the stove node is the
    home the simulator names; for the hundredth home it is not, the
    code being cut after two digits. *)
Theorem X7_simulator_ids (idx : nat) :
  (idx < 99)%nat ->
  extractHomeFromDevice (VStr (Simulator.air_deviceId idx))
  = Ok (VStr (Simulator.homeId_of idx))
  /\ extractHomeFromDevice (VStr (Simulator.stove_deviceId idx))
     = Ok (VStr (Simulator.homeId_of idx))
  /\ extractHomeFromDevice (VStr (Simulator.air_deviceId 99))
     <> Ok (VStr (Simulator.homeId_of 99)).
Proof.
  intros Hidx.
  assert (Hin : In idx (seq 0 99)) by (apply in_seq; lia).
  pose proof (proj1 (forallb_forall coded (seq 0 99)) coded_below_99 idx Hin)
    as Hc.
  unfold coded in Hc.
  destruct (match_here (Simulator.homeId_of idx)) as [m|] eqn:E;
    [|discriminate].
  apply String.eqb_eq in Hc. subst m.
  apply match_here_spec in E as [Hcode _].
  destruct (match_HOME_coded _ Hcode) as (_ & Ha & Hs).
  unfold Simulator.air_deviceId, Simulator.stove_deviceId.
  split; [rewrite extract_text, Ha; [reflexivity | discriminate]|].
  split; [rewrite extract_text, Hs; [reflexivity | discriminate]|].
  vm_compute. discriminate.
Qed.

End SimulatorIds.

(** ** The handler on every topic *)

Section Handler.
Context `{Builtins} {World : Type} `{Collaborators World}.

Lemma unconverted_truthy (v : value) : converts v = false -> truthy v = true.
Proof.
  intros Hc. destruct (truthy v) eqn:Et; [reflexivity|].
  rewrite (falsy_converts _ Et) in Hc. discriminate Hc.
Qed.

(** [normalizeMessage] throws nothing but a TypeError, and only on a
    nullish message or on a field that does not convert. *)
Lemma normalize_throw (now topic : string) (raw : value) (e : Error) :
  normalizeMessage now topic raw = Throw e ->
  e = TypeError
  /\ (nullish raw = true
      \/ converts (get raw "ts") = false
      \/ converts (get raw "stream") = false
      \/ (truthy (Js.or (Js.or (get raw "homeId") (get raw "home"))
                        (get raw "h")) = false
          /\ converts (get raw "deviceId") = false)).
Proof.
  unfold normalizeMessage. destruct (nullish raw); [intros [= <-]; auto|].
  intros Hb.
  apply bind_throw in Hb as [Hb | (t & _ & Hb)].
  { apply toISO_throw in Hb as [Hc ->]. auto. }
  apply bind_throw in Hb as [Hb | (h & _ & Hb)].
  { unfold or_else in Hb.
    destruct (truthy (Js.or (Js.or (get raw "homeId") (get raw "home"))
                            (get raw "h"))); [discriminate|].
    apply extract_throw in Hb as [Hc ->]. auto 6. }
  cbv zeta in Hb.
  apply bind_throw in Hb as [Hb | (x & _ & Hb)].
  { apply explicit_throw in Hb as [Hc ->]. auto. }
  apply bind_throw in Hb as [Hb | (y & _ & Hb)]; [|discriminate Hb].
  unfold or_else in Hb. destruct (truthy x); [discriminate|].
  apply infer_throw in Hb as [Hc ->]. auto.
Qed.

Lemma normalize_null (now topic : string) (raw : value) :
  nullish raw = true -> normalizeMessage now topic raw = Throw TypeError.
Proof. intros Hr. unfold normalizeMessage. rewrite Hr. reflexivity. Qed.

(** A readable message passes [normalizeMessage] and the line logged
    after it, and only a readable one does. *)
Lemma readable_ok (now topic : string) (raw : value) :
  readable raw = true ->
  exists msg, normalizeMessage now topic raw = Ok msg
              /\ received_line msg = Ok Received.
Proof.
  unfold readable. intros Hr.
  apply andb_true_iff in Hr as [Hr Hs]. apply andb_true_iff in Hr as [Hr Hd].
  apply andb_true_iff in Hr as [Hr Ha]. apply andb_true_iff in Hr as [Hn Ht].
  apply negb_true_iff in Hn.
  destruct (normalizeMessage now topic raw) as [msg|e] eqn:Hrun.
  - exists msg. split; [reflexivity|].
    pose proof (stream_converts _ _ _ _ Hrun) as Hcs.
    apply normalize_ok in Hrun as (_ & _ & Hh & Hdev & _). cbv zeta in Hh.
    assert (Hch : converts (homeId msg) = true).
    { rewrite Hh.
      destruct (truthy (Js.or (Js.or (get raw "homeId") (get raw "home"))
                              (get raw "h"))) eqn:Ea.
      - rewrite (or_true _ _ Ea). exact Ha.
      - rewrite (or_false _ _ Ea).
        destruct (truthy (get raw "deviceId")); cbn [negb]; [|reflexivity].
        destruct (match_HOME (toStr (get raw "deviceId"))); reflexivity. }
    assert (Hcd : converts (deviceId msg) = true) by (rewrite Hdev; exact Hd).
    unfold received_line.
    rewrite (ToString_converts _ Hch), (ToString_converts _ Hcd),
      (ToString_converts _ Hcs).
    reflexivity.
  - exfalso.
    apply normalize_throw in Hrun as (_ & [Hx | [Hx | [Hx | [Hf Hx]]]]);
      try congruence.
    rewrite (or_true _ _ (unconverted_truthy _ Hx)) in Hd. congruence.
Qed.

Lemma ok_readable (now topic : string) (raw : value) (msg : Msg)
      (line : LogLine) :
  normalizeMessage now topic raw = Ok msg ->
  received_line msg = Ok line ->
  readable raw = true.
Proof.
  intros Hrun Hl.
  apply normalize_ok in Hrun as (Hn & _ & Hh & Hdev & _ & Ht & Hs & _).
  cbv zeta in Hh.
  apply received_ok in Hl as (_ & Hch & Hcd).
  unfold readable. rewrite Hn, Ht, Hs, <- Hdev, Hcd.
  cbn [negb andb]. rewrite !andb_true_r.
  destruct (truthy (Js.or (Js.or (get raw "homeId") (get raw "home"))
                          (get raw "h"))) eqn:Ea.
  - rewrite (or_true _ _ Ea) in Hh. rewrite <- Hh. exact Hch.
  - apply falsy_converts, Ea.
Qed.

Lemma handle_unreadable (st : State World) (topic : string) (raw : value) :
  readable raw = false ->
  handle st topic raw = (Throw TypeError, world st, []).
Proof.
  intros Hr. unfold handle.
  destruct (normalizeMessage (clock (world st)) topic raw) as [msg|e] eqn:Hn;
    cbn [bind].
  - destruct (received_line msg) as [line|e] eqn:Hl; cbn [bind].
    + rewrite (ok_readable _ _ _ _ _ Hn Hl) in Hr. discriminate Hr.
    + rewrite (received_throw _ _ Hl). reflexivity.
  - apply normalize_throw in Hn as [-> _]. reflexivity.
Qed.

(** The traces of a readable message, by topic. *)
Lemma parsed_message (st : State World) (topic : string) (raw : value) :
  readable raw = true ->
  (topic = "shega/alerts"
   /\ handle st topic raw = (Ok tt, world st, Log Received :: push (io st) alert raw))
  \/ (topic <> "shega/alerts"
      /\ telemetry_path st topic raw (handle st topic raw)
      /\ fst (fst (handle st topic raw)) = Ok tt).
Proof.
  intros Hr.
  destruct (readable_ok (clock (world st)) topic raw Hr) as (msg & Hn & Hl).
  destruct (String.eqb_spec topic "shega/alerts") as [-> | Hne].
  - left. split; [reflexivity|]. rewrite handle_alerts_topic, Hn, Hl.
    reflexivity.
  - right. split; [exact Hne|].
    pose proof (handle_telemetry st topic raw Hne) as Hpath.
    split; [exact Hpath|].
    inversion Hpath; try reflexivity; congruence.
Qed.

Lemma unreadable_field (raw : value) :
  nullish raw = true
  \/ converts (get raw "ts") = false
  \/ converts (get raw "homeId") = false
  \/ converts (get raw "deviceId") = false
  \/ converts (get raw "stream") = false ->
  readable raw = false.
Proof.
  unfold readable. intros [Hx | [Hx | [Hx | [Hx | Hx]]]].
  - rewrite Hx. reflexivity.
  - rewrite Hx. apply andb_false_iff. left. apply andb_false_iff. left.
    apply andb_false_iff. left. apply andb_false_r.
  - rewrite (or_true (get raw "homeId") _ (unconverted_truthy _ Hx)).
    rewrite (or_true (get raw "homeId") _ (unconverted_truthy _ Hx)).
    rewrite Hx. apply andb_false_iff. left. apply andb_false_iff. left.
    apply andb_false_r.
  - rewrite (or_true (get raw "deviceId") _ (unconverted_truthy _ Hx)).
    rewrite Hx. apply andb_false_iff. left. apply andb_false_r.
  - rewrite Hx. apply andb_false_r.
Qed.

(** X8.  The promise of the handler rejects exactly on a parsed
    message that is not readable, with a TypeError and before any
    call or log line; so it does on [null] and on a message whose
    [ts], [homeId], [deviceId] or [stream] is an object that does not
    convert to text.  On every readable message it returns normally,
    also when the registry or the store rejects. *)
Theorem X8_handler_outcome (st : State World) (topic buf : string)
        (raw : value) :
  JSON_parse buf = Some raw ->
  (readable raw = false ->
   on_message st topic buf = (Throw TypeError, world st, []))
  /\ (readable raw = true -> fst (fst (on_message st topic buf)) = Ok tt)
  /\ (nullish raw = true
      \/ converts (get raw "ts") = false
      \/ converts (get raw "homeId") = false
      \/ converts (get raw "deviceId") = false
      \/ converts (get raw "stream") = false ->
      on_message st topic buf = (Throw TypeError, world st, [])).
Proof.
  intros Hp. unfold on_message. rewrite Hp. split; [|split].
  - apply handle_unreadable.
  - intros Hr.
    destruct (parsed_message st topic raw Hr) as [[_ ->] | (_ & _ & Hok)];
      [reflexivity | exact Hok].
  - intros Hx. apply handle_unreadable, unreadable_field, Hx.
Qed.


Lemma filter_nothing {A : Type} (f : A -> bool) (l : list A) :
  (forall x, In x l -> f x = false) -> List.filter f l = [].
Proof.
  induction l as [|x l IH]; intros Hall; [reflexivity|]. simpl.
  rewrite (Hall x (or_introl eq_refl)). apply IH.
  intros y Hy. apply Hall. right. exact Hy.
Qed.

(** After the store call, the handler calls neither the registry nor
    the store again. *)
Lemma after_store (st : State World) (w : World) (msg : Msg) (doc : value)
      (e : Event) :
  In e ((if nullish doc then [] else push (io st) telemetry doc)
        ++ maybePublishAlerts st w msg)%list ->
  is_upsert e = false /\ is_append e = false.
Proof.
  intros Hin. apply in_app_or in Hin as [Hin | Hin].
  - destruct (nullish doc); [contradiction|].
    apply push_events in Hin as [-> | [em ->]]; split; reflexivity.
  - apply publish_events in Hin. destruct e; try contradiction;
      split; reflexivity.
Qed.

(** X10.  For one message the handler calls the registry at most once
    and the store at most once; the store is called only after the
    registry has accepted the upsert of the same home, device and
    stream; and telemetry is handed to the sockets module only when
    the store has accepted the reading. *)
Theorem X10_store_discipline (st : State World) (topic buf : string)
        (r : Res unit) (w : World) (es : list Event) :
  on_message st topic buf = (r, w, es) ->
  (length (List.filter is_upsert es) <= 1)%nat
  /\ (length (List.filter is_append es) <= 1)%nat
  /\ (forall sa b, In (StoreAppend sa b) es ->
        exists pre post,
          es = (pre ++ StoreAppend sa b :: post)%list
          /\ In (RegistryUpsert (mkUpsert (s_homeId sa) (s_deviceId sa)
                                          (s_stream sa)) true) pre)
  /\ (forall doc, In (Push telemetry doc) es ->
        exists sa, In (StoreAppend sa true) es).
Proof.
  intros Hrun.
  assert (Hnone : (forall e, In e es -> is_upsert e = false /\ is_append e = false
                                        /\ forall doc, e <> Push telemetry doc) ->
            (length (List.filter is_upsert es) <= 1)%nat
            /\ (length (List.filter is_append es) <= 1)%nat
            /\ (forall sa b, In (StoreAppend sa b) es ->
                  exists pre post,
                    es = (pre ++ StoreAppend sa b :: post)%list
                    /\ In (RegistryUpsert (mkUpsert (s_homeId sa) (s_deviceId sa)
                                                    (s_stream sa)) true) pre)
            /\ (forall doc, In (Push telemetry doc) es ->
                  exists sa, In (StoreAppend sa true) es)).
  { intros Hall.
    rewrite (filter_nothing is_upsert es), (filter_nothing is_append es)
      by (intros e He; apply (Hall e He)).
    repeat split; [simpl; lia | simpl; lia | |].
    - intros sa b Hin. destruct (Hall _ Hin) as (_ & Hf & _). discriminate Hf.
    - intros doc Hin. destruct (Hall _ Hin) as (_ & _ & Hf).
      exfalso. exact (Hf doc eq_refl). }
  unfold on_message in Hrun.
  destruct (JSON_parse buf) as [raw|].
  2:{ injection Hrun as <- <- <-. apply Hnone.
      intros e [<- | []]. repeat split; discriminate. }
  destruct (readable raw) eqn:Hr.
  2:{ rewrite (handle_unreadable st _ _ Hr) in Hrun.
      injection Hrun as <- <- <-. apply Hnone. intros e []. }
  destruct (parsed_message st topic raw Hr) as [[_ Ha] | (_ & Hpath & _)].
  { rewrite Ha in Hrun. injection Hrun as <- <- <-. apply Hnone.
    intros e [<- | Hin]; [repeat split; discriminate|].
    apply push_events in Hin as [-> | [em ->]]; repeat split; discriminate. }
  rewrite Hrun in Hpath. clear Hrun.
  inversion Hpath; subst; clear Hpath.
  - apply Hnone. intros ev [].
  - apply Hnone. intros ev [].
  - apply Hnone. intros ev [<- | [<- | []]]; repeat split; discriminate.
  - apply Hnone. intros ev [<- | [<- | []]]; repeat split; discriminate.
  - repeat split; try (simpl; lia).
    + intros sa b Hin. simpl in Hin. intuition discriminate.
    + intros doc Hin. simpl in Hin. intuition discriminate.
  - repeat split; try (simpl; lia).
    + intros a b [Hin | [Hin | [Hin | [Hin | []]]]]; try discriminate Hin.
      injection Hin as <- <-.
      exists [Log Received; RegistryUpsert ua true], [Log MessageError].
      split; [reflexivity|]. right. left. reflexivity.
    + intros d Hin. simpl in Hin. intuition discriminate.
  - pose proof (after_store st w msg doc) as Htail.
    set (tail := ((if nullish doc then [] else push (io st) telemetry doc)
                  ++ maybePublishAlerts st w msg)%list) in *.
    change (Log Received :: RegistryUpsert ua true :: StoreAppend sa true
            :: Log Saved :: tail)
      with ([Log Received; RegistryUpsert ua true; StoreAppend sa true;
             Log Saved] ++ tail)%list.
    rewrite !List.filter_app, !length_app.
    rewrite (filter_nothing is_upsert tail), (filter_nothing is_append tail)
      by (intros ev He; apply (Htail ev He)).
    repeat split; try (simpl; lia).
    + intros a b Hin. apply in_app_or in Hin as [Hin | Hin].
      * destruct Hin as [Hin | [Hin | [Hin | [Hin | []]]]];
          try discriminate Hin.
        injection Hin as <- <-.
        exists [Log Received; RegistryUpsert ua true], (Log Saved :: tail).
        split; [reflexivity|]. right. left. reflexivity.
      * destruct (Htail _ Hin) as [_ Hf]. discriminate Hf.
    + intros d _. exists sa. right. right. left. reflexivity.
Qed.

End Handler.

(** ** The dispatcher on every path *)

Section DispatchPaths.
Context `{Builtins} {World : Type} `{Collaborators World}.

(** X11.  A dispatch publishes all or nothing: a call that returns
    has published exactly one message, the one it returns, and a call
    that throws has published nothing; nothing is ever handed to the
    sockets module. *)
Theorem X11_dispatch_all_or_nothing (st : State World) (deviceId command : value) :
  match sendDeviceControl st deviceId command with
  | (Ok s, _, es) =>
      es = [BusPublish (sent_topic s) (sent_payload s)] /\ sent_ok s = true
  | (Throw _, _, es) => es = []
  end.
Proof.
  unfold sendDeviceControl.
  destruct (Device_findOne (world st) deviceId) as [w [device|e]];
    [|reflexivity].
  destruct (negb (truthy device)); [reflexivity|].
  destruct (getMqtt (set_world st w)) as [st' mqtt].
  destruct (negb mqtt); [reflexivity|].
  destruct (get device "type"); try reflexivity.
  unfold publish. destruct (negb (client st')); [reflexivity|].
  split; reflexivity.
Qed.

(** X12.  The failures of a dispatch after the lookup: an error of
    the lookup itself is passed on as it is; a device without a text
    [type] makes the call throw a TypeError; a publisher that is
    loaded but not started makes it throw "MQTT not started".  In each
    case nothing is published. *)
Theorem X12_dispatch_failures (st : State World) (deviceId command : value)
        (w : World) (found : Res value) :
  Device_findOne (world st) deviceId = (w, found) ->
  (forall e, found = Throw e ->
             sendDeviceControl st deviceId command
             = (Throw e, set_world st w, []))
  /\ (forall device, found = Ok device -> truthy device = true ->
        mqttPublisher st || mqtt_resolves st = true ->
        ((forall ty, get device "type" <> VStr ty) ->
         exists st', sendDeviceControl st deviceId command
                     = (Throw TypeError, st', []))
        /\ (forall ty, get device "type" = VStr ty -> client st = false ->
            exists st', sendDeviceControl st deviceId command
                        = (Throw (mkError "MQTT not started" None), st', []))).
Proof.
  intros Hfind. unfold sendDeviceControl. rewrite Hfind. split.
  - intros e ->. reflexivity.
  - intros device -> Htr Hav. rewrite Htr. cbn [negb].
    assert (Hget : exists st', getMqtt (set_world st w) = (st', true)
                               /\ client st' = client st).
    { unfold getMqtt. cbn [set_world mqttPublisher mqtt_resolves client].
      destruct (mqttPublisher st); [eexists; split; reflexivity|].
      simpl in Hav. rewrite Hav. eexists; split; reflexivity. }
    destruct Hget as (st' & -> & Hc). cbn [negb]. split.
    + intros Hty. destruct (get device "type") eqn:E;
        try (eexists; reflexivity).
      exfalso. exact (Hty _ eq_refl).
    + intros ty -> Hoff. unfold publish. rewrite Hc, Hoff.
      eexists. reflexivity.
Qed.

End DispatchPaths.

(** ** The handshake of the sockets module *)

Section HandshakeProps.

Lemma split_plain (c : ascii) (t : string) :
  (forall pre post, t <> pre ++ String c post) ->
  Handshake.split c t = [t].
Proof.
  induction t as [|a t IH]; intros Hno; [reflexivity|]. simpl.
  destruct (Ascii.eqb_spec a c) as [-> | Hne].
  - exfalso. exact (Hno EmptyString t eq_refl).
  - rewrite IH; [reflexivity|].
    intros pre post ->. exact (Hno (String a pre) post eq_refl).
Qed.

Lemma split_first (c : ascii) (t rest : string) :
  (forall pre post, t <> pre ++ String c post) ->
  Handshake.split c (t ++ String c rest) = t :: Handshake.split c rest.
Proof.
  induction t as [|a t IH]; intros Hno.
  - simpl. rewrite Ascii.eqb_refl. reflexivity.
  - change (String a t ++ String c rest) with (String a (t ++ String c rest)).
    cbn [Handshake.split].
    destruct (Ascii.eqb_spec a c) as [-> | Hne].
    + exfalso. exact (Hno EmptyString t eq_refl).
    + rewrite IH; [reflexivity|].
      intros pre post ->. exact (Hno (String a pre) post eq_refl).
Qed.

Lemma bearer_second (t rest : string) :
  (forall pre post, t <> pre ++ String " " post) ->
  rest = EmptyString \/ (exists more, rest = String " " more) ->
  exists tail, Handshake.split " " ("Bearer " ++ t ++ rest) = "Bearer" :: t :: tail.
Proof.
  intros Hno Hrest.
  change ("Bearer " ++ t ++ rest) with ("Bearer" ++ String " " (t ++ rest)).
  rewrite split_first.
  2:{ intros [|a0 [|a1 [|a2 [|a3 [|a4 [|a5 [|a6 pre]]]]]]] post; discriminate. }
  destruct Hrest as [-> | [more ->]].
  - exists []. f_equal.
    replace (t ++ EmptyString) with t; [apply split_plain, Hno|].
    clear Hno. induction t as [|a t IH]; [reflexivity|].
    change (String a t ++ EmptyString) with (String a (t ++ EmptyString)).
    rewrite <- IH. reflexivity.
  - eexists. f_equal. apply split_first, Hno.
Qed.

(** X13.  With no [auth.token], the token taken from an
    [authorization] header ["Bearer <t>"] is the text [t] between the
    first space and the next one (or the end); when that text is empty
    the handshake is refused with "Missing token", and the verifier is
    not consulted. *)
Theorem X13_bearer_token (t rest : string) (viaAuth : value)
        (jwt_verify : value -> Res value) :
  truthy viaAuth = false ->
  (forall pre post, t <> pre ++ String " " post) ->
  rest = EmptyString \/ (exists more, rest = String " " more) ->
  let hello := Handshake.mkHello (Some ("Bearer " ++ t ++ rest)) viaAuth in
  Handshake.presented_token hello = VStr t
  /\ (t = EmptyString ->
      Handshake.authenticate jwt_verify hello = Handshake.Refused "Missing token").
Proof.
  intros Hv Hno Hrest. cbv zeta.
  assert (Htok : Handshake.presented_token
                   (Handshake.mkHello (Some ("Bearer " ++ t ++ rest)) viaAuth)
                 = VStr t).
  { unfold Handshake.presented_token, Js.or.
    cbn [Handshake.authorization Handshake.auth_token].
    change (default EmptyString (Some ("Bearer " ++ t ++ rest)))
      with ("Bearer " ++ t ++ rest).
    rewrite Hv.
    destruct (bearer_second t rest Hno Hrest) as [tail ->].
    unfold Handshake.startsWith.
    rewrite (strip_prefix_app "Bearer " (t ++ rest)). reflexivity. }
  split; [exact Htok|].
  intros ->. unfold Handshake.authenticate. rewrite Htok. reflexivity.
Qed.

(** X14.  A handshake without credentials is refused with "Missing
    token" whatever the verifier would say: no [auth.token] (or a
    falsy one) together with no [authorization] header, or with a
    header that does not start with ["Bearer "]. *)
Theorem X14_missing_token (h : Handshake.Hello)
        (jwt_verify : value -> Res value) :
  truthy (Handshake.auth_token h) = false ->
  Handshake.startsWith (default EmptyString (Handshake.authorization h))
                       "Bearer " = false ->
  Handshake.authenticate jwt_verify h = Handshake.Refused "Missing token".
Proof.
  intros Hv Hs. unfold Handshake.authenticate, Handshake.presented_token, Js.or.
  rewrite Hv, Hs. reflexivity.
Qed.

(** X15.  Whoever is accepted was verified: the user of an accepted
    handshake is read from the payload the verifier returned for the
    presented token, with [homes] replaced by the empty list when the
    payload has none; a truthy [auth.token] is the presented token,
    whatever the header says; and a verifier that throws always gives
    "Invalid token". *)
Theorem X15_accepted_is_verified (h : Handshake.Hello)
        (jwt_verify : value -> Res value) :
  (forall u, Handshake.authenticate jwt_verify h = Handshake.Accepted u ->
     truthy (Handshake.presented_token h) = true
     /\ exists payload,
         jwt_verify (Handshake.presented_token h) = Ok payload
         /\ Handshake.id u = get payload "sub"
         /\ Handshake.role u = get payload "role"
         /\ Handshake.homes u
            = (if truthy (get payload "homes") then get payload "homes"
               else VArr []))
  /\ (truthy (Handshake.auth_token h) = true ->
      Handshake.presented_token h = Handshake.auth_token h)
  /\ (truthy (Handshake.presented_token h) = true ->
      forall e, jwt_verify (Handshake.presented_token h) = Throw e ->
      Handshake.authenticate jwt_verify h = Handshake.Refused "Invalid token").
Proof.
  split; [|split].
  - intros u. unfold Handshake.authenticate.
    destruct (truthy (Handshake.presented_token h)); [|discriminate].
    cbn [negb].
    destruct (jwt_verify (Handshake.presented_token h)) as [payload|e];
      [|discriminate].
    destruct (nullish payload); [discriminate|].
    intros [= <-]. split; [reflexivity|]. exists payload.
    repeat split.
  - intros Hv. unfold Handshake.presented_token, Js.or. rewrite Hv. reflexivity.
  - intros Ht e He. unfold Handshake.authenticate. rewrite Ht, He. reflexivity.
Qed.

End HandshakeProps.

(** ** Rooms *)

Section Rooms.
Context `{Builtins}.

Lemma in_join (rooms : list string) (room r : string) :
  In r (Handshake.join rooms room) <-> In r rooms \/ r = room.
Proof.
  unfold Handshake.join.
  destruct (existsb (String.eqb room) rooms) eqn:E.
  - split; [auto|]. intros [Hin | ->]; [exact Hin|].
    apply existsb_exists in E as (x & Hx & Hxe).
    apply String.eqb_eq in Hxe. subst x. exact Hx.
  - rewrite in_app_iff. simpl. intuition.
Qed.

Lemma in_joined (f : value -> string) (hs : list value) (rooms : list string)
      (r : string) :
  In r (fold_left (fun rs h => Handshake.join rs (f h)) hs rooms)
  <-> In r rooms \/ exists h, In h hs /\ f h = r.
Proof.
  revert rooms. induction hs as [|h hs IH]; intros rooms; simpl.
  - split; [auto | intros [Hin | (h & [] & _)]; exact Hin].
  - rewrite IH, in_join. split.
    + intros [[Hin | ->] | (h' & Hh & Hf)]; eauto.
    + intros [Hin | (h' & [<- | Hh] & Hf)]; eauto.
Qed.

Lemma join_homes_ok (hs : list value) (rooms : list string) :
  forallb converts hs = true ->
  Handshake.join_homes hs rooms
  = Ok (fold_left (fun rs h => Handshake.join rs ("home:" ++ toStr h))
                  hs rooms).
Proof.
  revert rooms. induction hs as [|h hs IH]; intros rooms Hall; [reflexivity|].
  cbn [forallb] in Hall. apply andb_true_iff in Hall as [Hh Hall].
  cbn [Handshake.join_homes fold_left].
  rewrite (ToString_converts _ Hh). cbn [bind]. apply IH, Hall.
Qed.

Lemma join_homes_throw (hs : list value) (rooms : list string) :
  forallb converts hs = false ->
  Handshake.join_homes hs rooms = Throw TypeError.
Proof.
  revert rooms. induction hs as [|h hs IH]; intros rooms Hall;
    [discriminate Hall|].
  cbn [forallb] in Hall. cbn [Handshake.join_homes]. unfold ToString.
  destruct (converts h); cbn [bind]; [apply IH, Hall | reflexivity].
Qed.

(** X16.  A socket that connects with an array of homes that convert
    to text is in the room [admin] exactly when its role is the text
    ["admin"], and in a room [home:<x>] exactly when one of its homes
    has the text [x]; so an emission about an object reaches it
    exactly when it is an admin or one of its homes has the text of
    the [homeId] of the object.  When one of the homes does not
    convert, the listener throws a TypeError and no ['ready'] is
    sent.  The identifier of a socket is taken to be neither
    ["admin"] nor a text starting with ["home:"]. *)
Theorem X16_rooms_and_emissions (sid : string) (u : Handshake.User)
        (hs : list value) :
  Handshake.homes u = VArr hs ->
  sid <> "admin" ->
  strip_prefix "home:" sid = None ->
  (forallb converts hs = false ->
   Handshake.on_connection sid u = Throw TypeError)
  /\ (forallb converts hs = true ->
      exists rooms,
        Handshake.on_connection sid u = Ok rooms
        /\ (In "admin" rooms <-> Handshake.role u = VStr "admin")
        /\ (forall x, In ("home:" ++ x) rooms
                      <-> exists h, In h hs /\ toStr h = x)
        /\ forall event o es,
             Sockets.emit_to_home true event o = Ok es ->
             (Exists (addressed rooms) es
              <-> Handshake.role u = VStr "admin"
                  \/ exists h, In h hs /\ toStr h = toStr (get o "homeId"))).
Proof.
  intros Hhomes Hsid Hpre. unfold Handshake.on_connection. rewrite Hhomes.
  split; [apply join_homes_throw|].
  intros Hall. rewrite (join_homes_ok _ _ Hall).
  eexists. split; [reflexivity|].
  set (start := if Handshake.is_admin (Handshake.role u)
                then Handshake.join [sid] "admin" else [sid]).
  assert (Hadmin : Handshake.is_admin (Handshake.role u) = true
                   <-> Handshake.role u = VStr "admin").
  { unfold Handshake.is_admin. destruct (Handshake.role u); try (split; discriminate).
    rewrite String.eqb_eq. split; [intros ->; reflexivity | intros [= ->]; reflexivity]. }
  assert (Hstart_admin : In "admin" start <-> Handshake.role u = VStr "admin").
  { unfold start. rewrite <- Hadmin.
    destruct (Handshake.is_admin (Handshake.role u)).
    - rewrite in_join. split; [reflexivity | auto].
    - simpl. split; [intros [E | []]; congruence | discriminate]. }
  assert (Hstart_home : forall x, ~ In ("home:" ++ x) start).
  { intros x Hin.
    assert (Hs : In ("home:" ++ x) [sid] \/ "home:" ++ x = "admin").
    { unfold start in Hin. destruct (Handshake.is_admin (Handshake.role u));
        [apply in_join in Hin; exact Hin | left; exact Hin]. }
    destruct Hs as [[E | []] | E]; [|discriminate E].
    rewrite E, strip_prefix_app in Hpre. discriminate Hpre. }
  assert (Hin_admin :
            In "admin" (fold_left (fun rs h => Handshake.join rs ("home:" ++ toStr h))
                                  hs start)
            <-> Handshake.role u = VStr "admin").
  { rewrite (in_joined (fun h => "home:" ++ toStr h)), Hstart_admin.
    split; [intros [E | (h & _ & E)]; [exact E | discriminate E] | auto]. }
  assert (Hin_home : forall x,
            In ("home:" ++ x)
               (fold_left (fun rs h => Handshake.join rs ("home:" ++ toStr h))
                          hs start)
            <-> exists h, In h hs /\ toStr h = x).
  { intros x. rewrite (in_joined (fun h => "home:" ++ toStr h)). split.
    - intros [Hin | (h & Hh & E)]; [destruct (Hstart_home x Hin)|].
      exists h. split; [exact Hh|]. injection E as E. exact E.
    - intros (h & Hh & <-). right. exists h. auto. }
  split; [exact Hin_admin|]. split; [exact Hin_home|].
  intros event o es. unfold Sockets.emit_to_home. cbn [negb].
  destruct (nullish o); [discriminate|].
  intros Hb. apply bind_ok in Hb as (x & Hx & [= <-]).
  apply ToString_ok in Hx as [_ ->].
  rewrite !Exists_cons, Exists_nil. unfold addressed. cbn [Sockets.room].
  rewrite Hin_admin, Hin_home. tauto.
Qed.

End Rooms.

(** ** The device scope *)

Section Scope.
Context {World : Type}.
Variable findOne : World -> Access.Query -> World * Res value.
Hypothesis findOne_honours : honours findOne.

(** X17.  When the registry answers filters as asked, the middleware
    lets a request proceed only with a device that has the [deviceId]
    of the request and, unless the role of the user is the text
    ["admin"], whose [homeId] is one of the homes of the user; a
    request without a user, or of a user without homes, never
    proceeds. *)
Theorem X17_scope_enforced (w w' : World) (req : Access.Request) (d : value) :
  Access.authorizeDeviceParam findOne w req = (w', Access.Proceed d) ->
  get d "deviceId" = Access.param_deviceId req
  /\ (Access.user_field req "role" = VStr "admin"
      \/ (nullish (Access.user req) = false
          /\ exists hs, get (Access.user req) "homes" = VArr hs
                        /\ In (get d "homeId") hs)).
Proof.
  unfold Access.authorizeDeviceParam.
  destruct (findOne w (Access.build_query req)) as [w1 [device|e]] eqn:Hf;
    [|discriminate].
  destruct (truthy device) eqn:Ht; cbn [negb]; [|discriminate].
  intros [= <- <-].
  destruct (findOne_honours _ _ _ _ Hf Ht) as [Hid Hhome].
  split; [exact Hid|].
  unfold Access.build_query in Hhome. cbn [Access.q_homeId_in] in Hhome.
  destruct (Handshake.is_admin (Access.user_field req "role")) eqn:Ha.
  - left. unfold Handshake.is_admin in Ha.
    destruct (Access.user_field req "role"); try discriminate.
    apply String.eqb_eq in Ha. subst. reflexivity.
  - right. unfold Access.user_field, Js.or in Hhome |- *.
    destruct (nullish (Access.user req)); cbn [truthy] in Hhome;
      [destruct Hhome|].
    split; [reflexivity|].
    destruct (truthy (get (Access.user req) "homes"));
      [|destruct Hhome].
    destruct (get (Access.user req) "homes"); try destruct Hhome.
    eexists. split; [reflexivity | exact Hhome].
Qed.

End Scope.

(** ** The reducers of the admin service *)

Section AdminReducers.
Context `{Builtins}.

Lemma later_fold (ds : list Admin.DeviceDoc) (acc : option Z) :
  let res := fold_left Admin.later ds acc in
  (res = None <-> acc = None /\ forall d, In d ds -> Admin.lastSeenAt d = None)
  /\ forall m, res = Some m ->
       (acc = Some m \/ exists d, In d ds /\ Admin.lastSeenAt d = Some m)
       /\ (forall t, acc = Some t -> (t <= m)%Z)
       /\ (forall d t, In d ds -> Admin.lastSeenAt d = Some t -> (t <= m)%Z).
Proof.
  revert acc. induction ds as [|d ds IH]; intros acc; cbn [fold_left].
  - cbv zeta. split.
    + split; [intros ->; split; [reflexivity | intros d []] | intros [-> _]; reflexivity].
    + intros m ->. split; [left; reflexivity|]. split.
      * intros t [= ->]. lia.
      * intros d t [].
  - destruct (IH (Admin.later acc d)) as [Hnone Hsome]. cbv zeta. split.
    + rewrite Hnone. unfold Admin.later. split.
      * intros [Ha Hall]. destruct acc as [a|].
        -- destruct (Admin.lastSeenAt d) as [t|]; [destruct (a <? t)%Z|];
             discriminate.
        -- split; [reflexivity|]. intros d' [<- | Hin]; [exact Ha | auto].
      * intros [-> Hall]. split; [apply Hall; left; reflexivity|].
        intros d' Hin. apply Hall. right. exact Hin.
    + intros m Hm. destruct (Hsome m Hm) as (Hwhere & Hacc & Hall).
      unfold Admin.later in Hwhere, Hacc.
      destruct acc as [a|]; destruct (Admin.lastSeenAt d) as [t|] eqn:Ed.
      * destruct (Z.ltb_spec a t) as [Hlt | Hge].
        -- specialize (Hacc t eq_refl). split; [|split].
           ++ destruct Hwhere as [[= <-] | (d' & Hin & E)];
                right; [exists d | exists d']; auto with datatypes.
           ++ intros t' [= <-]. lia.
           ++ intros d' t' [<- | Hin] E; [|eauto].
              rewrite Ed in E. injection E as <-. exact Hacc.
        -- specialize (Hacc a eq_refl). split; [|split].
           ++ destruct Hwhere as [[= <-] | (d' & Hin & E)];
                [left; reflexivity | right; exists d'; auto with datatypes].
           ++ intros t' [= <-]. exact Hacc.
           ++ intros d' t' [<- | Hin] E; [|eauto].
              rewrite Ed in E. injection E as <-. lia.
      * specialize (Hacc a eq_refl). split; [|split].
        -- destruct Hwhere as [[= <-] | (d' & Hin & E)];
             [left; reflexivity | right; exists d'; auto with datatypes].
        -- intros t' [= <-]. exact Hacc.
        -- intros d' t' [<- | Hin] E; [congruence | eauto].
      * specialize (Hacc t eq_refl). split; [|split].
        -- destruct Hwhere as [[= <-] | (d' & Hin & E)];
             right; [exists d | exists d']; auto with datatypes.
        -- discriminate.
        -- intros d' t' [<- | Hin] E; [|eauto].
           rewrite Ed in E. injection E as <-. exact Hacc.
      * split; [|split].
        -- destruct Hwhere as [[=] | (d' & Hin & E)].
           right; exists d'; auto with datatypes.
        -- discriminate.
        -- intros d' t' [<- | Hin] E; [congruence | eauto].
Qed.

(** X18.  The [lastSeenAt] of a home detail is the latest date among
    its devices: it is the date of one of them and no device has a
    later one; it is missing exactly when no device has a date. *)
Theorem X18_last_seen_is_latest (devices : list Admin.DeviceDoc) :
  (Admin.lastSeen devices = None
   <-> forall d, In d devices -> Admin.lastSeenAt d = None)
  /\ forall m, Admin.lastSeen devices = Some m ->
       (exists d, In d devices /\ Admin.lastSeenAt d = Some m)
       /\ forall d t, In d devices -> Admin.lastSeenAt d = Some t ->
                      (t <= m)%Z.
Proof.
  destruct (later_fold devices None) as [Hnone Hsome]. split.
  - unfold Admin.lastSeen. rewrite Hnone. split; [intros [_ Hall]; exact Hall | auto].
  - intros m Hm. destruct (Hsome m Hm) as ([[=] | Hd] & _ & Hall).
    split; [exact Hd | exact Hall].
Qed.

Lemma total_bump (acc : gmap string nat) (k : string) :
  total (Admin.bump acc k) = S (total acc).
Proof.
  unfold total, Admin.bump.
  assert (Hcomm : forall (m : gmap string nat) (j1 j2 : string) (z1 z2 y : nat),
             j1 <> j2 -> m !! j1 = Some z1 -> m !! j2 = Some z2 ->
             (z1 + (z2 + y) = z2 + (z1 + y))%nat) by (intros; lia).
  destruct (acc !! k) as [n|] eqn:E; cbn [default from_option id].
  - rewrite (map_fold_delete_L _ _ k n acc (Hcomm acc) E).
    rewrite <- (insert_delete_eq acc).
    rewrite map_fold_insert_L;
      [lia | apply Hcomm | apply lookup_delete_eq].
  - rewrite map_fold_insert_L; [lia | apply Hcomm | exact E].
Qed.

Lemma count_by_spec (f : string) (devices : list Admin.DeviceDoc)
      (acc m : gmap string nat) :
  Admin.count_by f devices acc = Some m ->
  (forall k, default 0%nat (m !! k)
             = (default 0%nat (acc !! k) + occurrences f k devices)%nat)
  /\ total m = (total acc + length devices)%nat.
Proof.
  revert acc. induction devices as [|d ds IH]; intros acc; cbn [Admin.count_by].
  - intros [= <-]. split; [intros k; unfold occurrences; simpl; lia|].
    simpl. lia.
  - unfold ToString. destruct (converts (get (Admin.fields d) f));
      [|discriminate].
    destruct (existsb (String.eqb (toStr (get (Admin.fields d) f)))
                      Admin.Object_prototype_names); [discriminate|].
    intros Hrec. destruct (IH _ Hrec) as [Hk Ht]. split.
    + intros k. rewrite Hk. unfold occurrences, Admin.bump.
      cbn [List.filter].
      destruct (String.eqb_spec (toStr (get (Admin.fields d) f)) k) as [<- | Hne].
      * rewrite lookup_insert_eq. simpl. lia.
      * rewrite lookup_insert_ne by exact Hne. simpl. lia.
    + rewrite Ht, total_bump. simpl. lia.
Qed.

Lemma total_empty : total (∅ : gmap string nat) = 0%nat.
Proof. unfold total. apply map_fold_empty. Qed.

(** X19.  The tables [statusCounts] and [byTypeCounts] of a home
    detail count the devices: the count under a text is the number of
    devices whose status (type) has that text, a text no device has is
    not counted, and the counts of each table add up to
    [totalDevices].  (Statuses and types that do not convert to a
    property name, or that are named like a property of
    [Object.prototype], are left aside.) *)
Theorem X19_counts_add_up (devices : list Admin.DeviceDoc) :
  (forall m, Admin.statusCounts devices = Some m ->
     (forall k, default 0%nat (m !! k) = occurrences "status" k devices)
     /\ total m = Admin.totalDevices devices)
  /\ (forall m, Admin.byTypeCounts devices = Some m ->
        (forall k, default 0%nat (m !! k) = occurrences "type" k devices)
        /\ total m = Admin.totalDevices devices).
Proof.
  split; intros m Hc; destruct (count_by_spec _ _ _ _ Hc) as [Hk Ht]; split.
  - intros k. rewrite Hk, lookup_empty. reflexivity.
  - rewrite Ht, total_empty. reflexivity.
  - intros k. rewrite Hk, lookup_empty. reflexivity.
  - rewrite Ht, total_empty. reflexivity.
Qed.

End AdminReducers.

(** ** Measurements under [payload] *)

Section Shadowing.
Context `{Builtins}.

(** X20.  When the message has an object or an array under [payload],
    the measurements are read there and nowhere else: the canonical
    payload is that of [raw.payload] alone, whatever the message holds
    at the top; under an array no measurement is found, so nothing is
    alerted and the presence heuristic finds no stream. *)
Theorem X20_nested_payload_shadows (now topic : string) (raw : value)
        (msg : Msg) (v : value) :
  normalizeMessage now topic raw = Ok msg ->
  get raw "payload" = v ->
  typeof_object v = true ->
  v <> VNull ->
  payload msg = canonical_payload v
  /\ forall l, v = VArr l ->
       evaluate (payload msg) = [] /\ by_presence (payload msg) = VUndef.
Proof.
  intros Hn Hv Hobj Hnull. apply normalize_ok in Hn as (_ & Hp & _).
  assert (Hsrc : source_of raw = v).
  { unfold source_of. rewrite Hv, Hobj.
    destruct v; try discriminate; try reflexivity. contradiction. }
  rewrite Hp, Hsrc. split; [reflexivity|].
  intros l ->. split; reflexivity.
Qed.

End Shadowing.

(** ** Commands and the simulator *)

Section Commands.
Context `{Builtins}.

Lemma split_two (c : ascii) (pre rest : string) :
  exists x y ys, Handshake.split c (pre ++ String c rest) = x :: y :: ys.
Proof.
  assert (Hne : forall s, exists y ys, Handshake.split c s = y :: ys).
  { induction s as [|a s (y & ys & IH)]; simpl; [eauto|].
    destruct (Ascii.eqb a c); [eauto|]. rewrite IH. eauto. }
  induction pre as [|a pre (x & y & ys & IH)].
  - simpl. rewrite Ascii.eqb_refl. destruct (Hne rest) as (y & ys & ->). eauto.
  - change (String a pre ++ String c rest)
      with (String a (pre ++ String c rest)).
    cbn [Handshake.split]. rewrite IH.
    destruct (Ascii.eqb a c); eauto.
Qed.

Lemma last_part_after (pre rest : string) :
  Simulator.last_part (pre ++ String "/" rest) = Simulator.last_part rest.
Proof.
  unfold Simulator.last_part. induction pre as [|a pre IH].
  - simpl. destruct (split_two "/" EmptyString rest) as (x & y & ys & E).
    simpl in E. injection E as _ E. rewrite E. reflexivity.
  - change (String a pre ++ String "/" rest)
      with (String a (pre ++ String "/" rest)).
    cbn [Handshake.split].
    destruct (split_two "/" pre rest) as (x & y & ys & E).
    rewrite E in IH |- *.
    destruct (Ascii.eqb a "/"); exact IH.
Qed.

(** X21.  A command of the dispatcher changes no stove of the
    simulator: the last part of its topic
    [shega/<type>/control] is ["control"], which the simulator takes
    for the identifier of the stove, and the stoves are registered
    under their [STOVE_...] identifiers. *)
Theorem X21_command_topic_misses_stoves (stoves : gmap string Simulator.Stove)
        (ty message : string) :
  (forall k s, stoves !! k = Some s -> exists idx, k = Simulator.stove_deviceId idx) ->
  let topic := "shega/" ++ toLowerCase ty ++ "/control" in
  Simulator.last_part topic = "control"
  /\ Simulator.on_control stoves topic message = stoves.
Proof.
  intros Hkeys. cbv zeta.
  assert (Hlast : Simulator.last_part ("shega/" ++ toLowerCase ty ++ "/control")
                  = "control").
  { change ("shega/" ++ toLowerCase ty ++ "/control")
      with ("shega" ++ String "/" (toLowerCase ty ++ String "/" "control")).
    rewrite !last_part_after. reflexivity. }
  split; [exact Hlast|].
  unfold Simulator.on_control. rewrite Hlast.
  destruct (JSON_parse message) as [payload|]; [|reflexivity].
  cbn [String.eqb Ascii.eqb Bool.eqb].
  destruct (stoves !! "control") as [s|] eqn:E; [|reflexivity].
  destruct (Hkeys _ _ E) as [idx Hidx]. discriminate Hidx.
Qed.

(** X22.  The payload of the dispatcher changes no stove of the
    simulator on any topic: it carries the command under [command],
    and the simulator reads [fanOn] and [buzzerOn] at the top of the
    payload. *)
Theorem X22_command_payload_ignored (stoves : gmap string Simulator.Stove)
        (topic message : string) (device command : value) (now : string) :
  JSON_parse message = Some (control_payload device command now) ->
  Simulator.on_control stoves topic message = stoves.
Proof.
  intros Hp. unfold Simulator.on_control. rewrite Hp.
  destruct (String.eqb (Simulator.last_part topic) EmptyString); [reflexivity|].
  destruct (stoves !! Simulator.last_part topic) as [s|] eqn:E; [|reflexivity].
  cbn [nullish control_payload obj].
  replace (get (control_payload device command now) "fanOn") with VUndef
    by reflexivity.
  replace (get (control_payload device command now) "buzzerOn") with VUndef
    by reflexivity.
  cbn [Simulator.switch]. apply insert_id. rewrite E. destruct s; reflexivity.
Qed.

End Commands.

(** ** The further properties on concrete inputs *)

Lemma X3_payload_shape_witness :
  exists msg,
    normalizeMessage (H := Sample.builtins) Sample.instant "shega/airnode/data"
                     Sample.air_reading = Ok msg
    /\ absent_or_finite (co2 (payload msg)).
Proof.
  eexists. split; [reflexivity|].
  apply (X3_payload_shape (H := Sample.builtins) Sample.instant
           "shega/airnode/data" Sample.air_reading).
  reflexivity.
Defined.

Lemma X4_stream_shape_witness :
  exists msg,
    normalizeMessage (H := Sample.builtins) Sample.instant "shega/x/data"
                     Sample.empty_reading = Ok msg
    /\ (truthy (stream msg) = false <-> stream msg = VUndef).
Proof.
  eexists. split; [reflexivity|].
  apply (X4_stream_shape (H := Sample.builtins) Sample.instant
           "shega/x/data" Sample.empty_reading).
  reflexivity.
Defined.

Lemma X5_home_round_trip_witness :
  extractHomeFromDevice (H := Sample.builtins) (VStr "STOVE_HOME_03")
  = Ok (VStr "HOME_03").
Proof.
  apply (X5_home_round_trip (H := Sample.builtins) "HOME_03").
  exists "0"%char, "3"%char. repeat split.
Defined.

Lemma X6_no_home_from_device_alias_witness :
  exists msg,
    normalizeMessage (H := Sample.builtins) Sample.instant "shega/airnode/data"
                     Sample.alias_reading = Ok msg
    /\ homeId msg = VUndef.
Proof.
  eexists. split; [reflexivity|].
  apply (X6_no_home_from_device_alias (H := Sample.builtins) Sample.instant
           "shega/airnode/data" Sample.alias_reading);
    [reflexivity | vm_compute; reflexivity ..].
Defined.

Lemma X7_simulator_ids_witness :
  extractHomeFromDevice (H := Sample.builtins) (VStr (Simulator.air_deviceId 6))
  = Ok (VStr (Simulator.homeId_of 6)).
Proof.
  apply (X7_simulator_ids (H := Sample.builtins) 6). lia.
Defined.

Lemma X8_handler_outcome_witness :
  on_message Sample.running "shega/airnode/data" "opaque"
  = (Throw TypeError, Sample.healthy, []).
Proof.
  assert (Hr : readable Sample.opaque_home_reading = false)
    by (vm_compute; reflexivity).
  exact (proj1 (X8_handler_outcome Sample.running "shega/airnode/data" "opaque"
                  Sample.opaque_home_reading eq_refl) Hr).
Defined.


Lemma X10_store_discipline_witness :
  (length (List.filter is_append
             (snd (on_message Sample.store_down "shega/airnode/data" "air")))
   <= 1)%nat.
Proof.
  destruct (on_message Sample.store_down "shega/airnode/data" "air")
    as [[r w] es] eqn:Hrun.
  apply (X10_store_discipline Sample.store_down "shega/airnode/data" "air" r w es).
  exact Hrun.
Defined.

Lemma X12_dispatch_failures_witness :
  exists st',
    sendDeviceControl Sample.stopped (VStr "STOVE_HOME_02")
                      (obj [("fanOn", VBool true)])
    = (Throw (mkError "MQTT not started" None), st', []).
Proof.
  assert (Hfind : Device_findOne (world Sample.stopped) (VStr "STOVE_HOME_02")
                  = (Sample.healthy, Ok Sample.stove_02))
    by (vm_compute; reflexivity).
  destruct (X12_dispatch_failures Sample.stopped (VStr "STOVE_HOME_02")
              (obj [("fanOn", VBool true)]) _ _ Hfind) as [_ Hfound].
  destruct (Hfound Sample.stove_02 eq_refl eq_refl eq_refl) as [_ Hoff].
  apply (Hoff "STOVENODE"); [vm_compute; reflexivity | reflexivity].
Defined.

Lemma X13_bearer_token_witness :
  Handshake.presented_token (Handshake.mkHello (Some "Bearer t-user") VUndef)
  = VStr "t-user".
Proof.
  apply (X13_bearer_token "t-user" EmptyString VUndef Sample.verify).
  - reflexivity.
  - intros [|a0 [|a1 [|a2 [|a3 [|a4 [|a5 [|a6 pre]]]]]]] post; discriminate.
  - left. reflexivity.
Defined.

Lemma X14_missing_token_witness :
  Handshake.authenticate Sample.verify
    (Handshake.mkHello (Some "Basic dXNlcg==") VUndef)
  = Handshake.Refused "Missing token".
Proof.
  apply (X14_missing_token (Handshake.mkHello (Some "Basic dXNlcg==") VUndef)
           Sample.verify);
    reflexivity.
Defined.

Lemma X15_accepted_is_verified_witness :
  truthy (Handshake.presented_token
            (Handshake.mkHello (Some "Bearer t-admin") (VStr "t-user")))
  = true.
Proof.
  destruct (Handshake.authenticate Sample.verify
              (Handshake.mkHello (Some "Bearer t-admin") (VStr "t-user")))
    as [u|reason] eqn:E; [|vm_compute in E; discriminate E].
  apply (X15_accepted_is_verified
           (Handshake.mkHello (Some "Bearer t-admin") (VStr "t-user"))
           Sample.verify) in E.
  exact (proj1 E).
Defined.

Lemma X16_rooms_and_emissions_witness :
  exists rooms,
    Handshake.on_connection (H := Sample.builtins) "Zx3kQ"
      (Handshake.mkUser (VStr "u2") (VStr "user") (VArr [VStr "HOME_02"]))
    = Ok rooms
    /\ ~ In "admin" rooms.
Proof.
  destruct (X16_rooms_and_emissions (H := Sample.builtins) "Zx3kQ"
              (Handshake.mkUser (VStr "u2") (VStr "user") (VArr [VStr "HOME_02"]))
              [VStr "HOME_02"] eq_refl ltac:(discriminate) eq_refl)
    as [_ Hok].
  destruct (Hok eq_refl) as (rooms & Hr & Hadmin & _).
  exists rooms. split; [exact Hr|].
  rewrite Hadmin. discriminate.
Defined.

Lemma sample_findOne_honours : honours Sample.findOne.
Proof.
  intros w q w' d [= _ <-] Ht.
  induction (Sample.devices w) as [|x ds IH]; [discriminate Ht|].
  cbn [Sample.find_by] in Ht |- *.
  destruct (Sample.answers q x) eqn:Ea; [|exact (IH Ht)].
  clear IH Ht. unfold Sample.answers in Ea.
  apply andb_true_iff in Ea as [Hid Hhome]. split.
  - destruct (Access.q_deviceId q) as [| | | |s| |]; try discriminate.
    unfold Sample.has_id in Hid.
    destruct (get x "deviceId") as [| | | |s'| |]; try discriminate.
    apply String.eqb_eq in Hid. subst. reflexivity.
  - destruct (Access.q_homeId_in q) as [homes|]; [|exact I].
    unfold Sample.home_in in Hhome.
    destruct homes as [| | | | |hs|]; try discriminate.
    destruct (get x "homeId") as [| | | |h| |]; try discriminate.
    apply existsb_exists in Hhome as (y & Hy & Hyh).
    destruct y as [| | | |s| |]; try discriminate.
    apply String.eqb_eq in Hyh. subst. exact Hy.
Qed.

Lemma X17_scope_enforced_witness :
  get Sample.stove_02 "deviceId" = VStr "STOVE_HOME_02".
Proof.
  assert (Hrun : Access.authorizeDeviceParam Sample.findOne Sample.healthy
                   (Access.mkRequest (VStr "STOVE_HOME_02") Sample.user_02)
                 = (Sample.healthy, Access.Proceed Sample.stove_02))
    by (vm_compute; reflexivity).
  apply (X17_scope_enforced Sample.findOne sample_findOne_honours _ _ _ _ Hrun).
Defined.

Lemma X18_last_seen_is_latest_witness :
  exists d, In d Sample.fleet /\ Admin.lastSeenAt d = Some 4000%Z.
Proof.
  apply (X18_last_seen_is_latest Sample.fleet). reflexivity.
Defined.

Lemma X19_counts_add_up_witness :
  exists m, Admin.statusCounts Sample.fleet = Some m /\ total m = 3%nat.
Proof.
  destruct (Admin.statusCounts Sample.fleet) as [m|] eqn:E;
    [|vm_compute in E; discriminate E].
  exists m. split; [reflexivity|].
  exact (proj2 (proj1 (X19_counts_add_up Sample.fleet) m E)).
Defined.

Lemma X20_nested_payload_shadows_witness :
  exists msg,
    normalizeMessage (H := Sample.builtins) Sample.instant "shega/airnode/data"
                     Sample.shadowed_reading = Ok msg
    /\ evaluate (payload msg) = [].
Proof.
  eexists. split; [reflexivity|].
  assert (Hp : get Sample.shadowed_reading "payload" = VArr [])
    by (vm_compute; reflexivity).
  destruct (X20_nested_payload_shadows (H := Sample.builtins) Sample.instant
              "shega/airnode/data" Sample.shadowed_reading _ (VArr [])
              eq_refl Hp eq_refl ltac:(discriminate)) as [_ Harr].
  exact (proj1 (Harr [] eq_refl)).
Defined.

Lemma X21_command_topic_misses_stoves_witness :
  Simulator.on_control (H := Sample.command_parser) Sample.two_stoves
                       ("shega/" ++ toLowerCase (Builtins := Sample.command_parser)
                                                "STOVENODE" ++ "/control") "cmd"
  = Sample.two_stoves.
Proof.
  apply (X21_command_topic_misses_stoves (H := Sample.command_parser)
           Sample.two_stoves "STOVENODE" "cmd").
  intros k s Hk. unfold Sample.two_stoves in Hk.
  apply lookup_insert_Some in Hk as [[<- _] | [_ Hk]]; [exists 0%nat; reflexivity|].
  apply lookup_insert_Some in Hk as [[<- _] | [_ Hk]]; [exists 1%nat; reflexivity|].
  rewrite lookup_empty in Hk. discriminate Hk.
Defined.

Lemma X22_command_payload_ignored_witness :
  Simulator.on_control (H := Sample.command_parser) Sample.two_stoves
                       "shega/stovenode/control/STOVE_HOME_02" "cmd"
  = Sample.two_stoves.
Proof.
  apply (X22_command_payload_ignored (H := Sample.command_parser)
           Sample.two_stoves "shega/stovenode/control/STOVE_HOME_02" "cmd"
           Sample.stove_02 (obj [("fanOn", VBool true)]) Sample.instant).
  reflexivity.
Defined.
